(** * graph_refs: reference markers and the introspection engine

    A shallow embedding of [src/graph_refs/_types.py] (the five marker
    shapes and [_GenericAlias]) and [src/graph_refs/_introspection.py]
    ([RefInfo], [get_refs], [_analyze_type], [get_dependencies]), followed by
    the properties of the engine. *)

From Equations Require Import Equations.
From Equations.Prop Require Import Logic.
From stdpp Require Import gmap strings list fin_maps fin_sets.
From Stdlib Require Import ZArith.

Set Warnings "-register-all,-clear-no-such-hyp".
Local Open Scope string_scope.
Local Open Scope nat_scope.
Local Open Scope list_scope.

(** ** Python values that can occur in an annotation *)

(** The five marker classes of [_types.py]. *)
Inductive marker := Ref | Attr | RefList | RefDict | ContextRef.

(** The objects the engine inspects.  Classes are compared by identity (here:
    by name); [_GenericAlias] and typing's aliases by origin and arguments,
    as [_GenericAlias.__eq__] does. *)
Inductive pyobj :=
| PNone                                            (* the value None *)
| PInt (n : Z)
| PStr (s : string)
| PTuple (items : list pyobj)
| NoneType                                         (* type(None) *)
| PClass (name : string)                           (* a user or builtin class *)
| PMarker (m : marker)                             (* the classes Ref, Attr, ... *)
| typing_Union                                     (* the special form typing.Union *)
| typing_Literal                                   (* the special form typing.Literal *)
| ForwardRef (s : string)                          (* typing.ForwardRef(s) *)
| TypingAlias (origin : pyobj) (args : list pyobj) (* typing's own generic alias *)
| _GenericAlias (__origin__ : pyobj) (__args__ : list pyobj).

Fixpoint pyobj_size (o : pyobj) : nat :=
  match o with
  | PTuple items => S (list_sum (map pyobj_size items))
  | TypingAlias origin args => S (pyobj_size origin + list_sum (map pyobj_size args))
  | _GenericAlias origin args => S (pyobj_size origin + list_sum (map pyobj_size args))
  | _ => 1
  end.

(** Induction over [pyobj] with the hypothesis available for every element of
    a parameter list. *)
Section pyobj_induction.
Variable P : pyobj → Prop.
Hypothesis HNone : P PNone.
Hypothesis HInt : ∀ n, P (PInt n).
Hypothesis HStr : ∀ s, P (PStr s).
Hypothesis HTuple : ∀ items, Forall P items → P (PTuple items).
Hypothesis HNoneType : P NoneType.
Hypothesis HClass : ∀ name, P (PClass name).
Hypothesis HMarker : ∀ m, P (PMarker m).
Hypothesis HUnion : P typing_Union.
Hypothesis HLiteral : P typing_Literal.
Hypothesis HForward : ∀ s, P (ForwardRef s).
Hypothesis HTyping : ∀ o args, P o → Forall P args → P (TypingAlias o args).
Hypothesis HAlias : ∀ o args, P o → Forall P args → P (_GenericAlias o args).

Fixpoint pyobj_nested_ind (o : pyobj) : P o :=
  let fix all (l : list pyobj) : Forall P l :=
    match l with
    | [] => Forall_nil_2 P
    | x :: l' => Forall_cons_2 P x l' (pyobj_nested_ind x) (all l')
    end in
  match o with
  | PNone => HNone
  | PInt n => HInt n
  | PStr s => HStr s
  | PTuple items => HTuple items (all items)
  | NoneType => HNoneType
  | PClass name => HClass name
  | PMarker m => HMarker m
  | typing_Union => HUnion
  | typing_Literal => HLiteral
  | ForwardRef s => HForward s
  | TypingAlias o args => HTyping o args (pyobj_nested_ind o) (all args)
  | _GenericAlias o args => HAlias o args (pyobj_nested_ind o) (all args)
  end.
End pyobj_induction.

(** *** Equality and hashing: [pyobj] is a countable type

    Python sets and dict keys need [__eq__] and [__hash__]; in the model
    every [pyobj] is hashable, through an injection into stdpp's generic
    trees. *)
Definition marker_code (m : marker) : nat :=
  match m with Ref => 0 | Attr => 1 | RefList => 2 | RefDict => 3 | ContextRef => 4 end.

Definition marker_of_code (n : nat) : marker :=
  match n with 0 => Ref | 1 => Attr | 2 => RefList | 3 => RefDict | _ => ContextRef end.

Fixpoint pyobj_encode (o : pyobj) : gen_tree (string + Z) :=
  match o with
  | PNone => GenNode 0 []
  | PInt n => GenLeaf (inr n)
  | PStr s => GenNode 1 [GenLeaf (inl s)]
  | PTuple items => GenNode 2 (map pyobj_encode items)
  | NoneType => GenNode 3 []
  | PClass name => GenLeaf (inl name)
  | PMarker m => GenNode 4 [GenNode (marker_code m) []]
  | typing_Union => GenNode 5 []
  | typing_Literal => GenNode 6 []
  | ForwardRef s => GenNode 7 [GenLeaf (inl s)]
  | TypingAlias o args => GenNode 8 (pyobj_encode o :: map pyobj_encode args)
  | _GenericAlias o args => GenNode 9 (pyobj_encode o :: map pyobj_encode args)
  end.

Fixpoint pyobj_decode (t : gen_tree (string + Z)) : pyobj :=
  match t with
  | GenLeaf (inr n) => PInt n
  | GenLeaf (inl name) => PClass name
  | GenNode 0 [] => PNone
  | GenNode 1 [GenLeaf (inl s)] => PStr s
  | GenNode 2 items => PTuple (map pyobj_decode items)
  | GenNode 3 [] => NoneType
  | GenNode 4 [GenNode c []] => PMarker (marker_of_code c)
  | GenNode 5 [] => typing_Union
  | GenNode 6 [] => typing_Literal
  | GenNode 7 [GenLeaf (inl s)] => ForwardRef s
  | GenNode 8 (o :: args) => TypingAlias (pyobj_decode o) (map pyobj_decode args)
  | GenNode 9 (o :: args) => _GenericAlias (pyobj_decode o) (map pyobj_decode args)
  | _ => PNone
  end.

Lemma pyobj_decode_encode_list (l : list pyobj) :
  Forall (λ o, pyobj_decode (pyobj_encode o) = o) l →
  map pyobj_decode (map pyobj_encode l) = l.
Proof.
  induction 1 as [|x l Hx _ IH]; simpl; [done|]. by rewrite Hx, IH.
Qed.

Lemma pyobj_decode_encode (o : pyobj) : pyobj_decode (pyobj_encode o) = o.
Proof.
  induction o as [| | |items IH| | |m| | | |o args IHo IH|o args IHo IH]
    using pyobj_nested_ind; simpl; try done.
  - by rewrite pyobj_decode_encode_list.
  - by destruct m.
  - by rewrite IHo, pyobj_decode_encode_list.
  - by rewrite IHo, pyobj_decode_encode_list.
Qed.

#[global] Instance pyobj_eq_dec : EqDecision pyobj.
Proof.
  intros x y. destruct (decide (pyobj_encode x = pyobj_encode y)) as [He|He].
  - left. rewrite <- (pyobj_decode_encode x), <- (pyobj_decode_encode y).
    by rewrite He.
  - right. intros ->. by apply He.
Defined.

#[global] Instance pyobj_countable : Countable pyobj :=
  inj_countable' pyobj_encode pyobj_decode pyobj_decode_encode.

#[global] Instance marker_eq_dec : EqDecision marker.
Proof. solve_decision. Defined.

(** ** Exceptions

    A call either returns a value or raises; [try ... except Exception] is a
    match on the outcome. *)
Inductive exn := TypeError | IndexError | NameError.

Inductive result (A : Type) :=
| Ok (a : A)
| Raise (e : exn).
Arguments Ok {A} a.
Arguments Raise {A} e.

#[global] Instance exn_eq_dec : EqDecision exn.
Proof. solve_decision. Defined.

#[global] Instance result_eq_dec {A} `{EqDecision A} : EqDecision (result A).
Proof. solve_decision. Defined.

(** Closed equations between computed values are decided by evaluation. *)
Ltac by_evaluation := apply (bool_decide_unpack _); vm_compute; exact I.

#[global] Instance result_ret : MRet result := λ A a, Ok a.
#[global] Instance result_bind : MBind result :=
  λ A B f r, match r with Ok a => f a | Raise e => Raise e end.

(** [seq[i]] on a tuple or list. *)
Definition getitem {A} (seq : list A) (i : nat) : result A :=
  match seq !! i with
  | Some x => Ok x
  | None => Raise IndexError
  end.

(** Truth value of a sequence: empty is false. *)
Definition truthy {A} (seq : list A) : bool :=
  match seq with [] => false | _ => true end.

(** ** [_types.py]: the marker shapes *)

Definition isinstance_tuple (o : pyobj) : bool :=
  match o with PTuple _ => true | _ => false end.

Definition tuple_items (o : pyobj) : list pyobj :=
  match o with PTuple items => items | _ => [] end.

(** [_RefMeta.__getitem__]: [Ref[item]]. *)
Definition _RefMeta_getitem (item : pyobj) : result pyobj :=
  Ok (_GenericAlias (PMarker Ref) [item]).

(** [_AttrMeta.__getitem__]: [Attr[args]]. *)
Definition _AttrMeta_getitem (args : pyobj) : result pyobj :=
  if negb (isinstance_tuple args) || negb (length (tuple_items args) =? 2)
  then Raise TypeError
  else Ok (_GenericAlias (PMarker Attr) (tuple_items args)).

(** [_RefListMeta.__getitem__]: [RefList[item]]. *)
Definition _RefListMeta_getitem (item : pyobj) : result pyobj :=
  Ok (_GenericAlias (PMarker RefList) [item]).

(** [_RefDictMeta.__getitem__]: [RefDict[args]]. *)
Definition _RefDictMeta_getitem (args : pyobj) : result pyobj :=
  if negb (isinstance_tuple args) || negb (length (tuple_items args) =? 2)
  then Raise TypeError
  else Ok (_GenericAlias (PMarker RefDict) (tuple_items args)).

(** [_ContextRefMeta.__getitem__]: [ContextRef[item]]. *)
Definition _ContextRefMeta_getitem (item : pyobj) : result pyobj :=
  Ok (_GenericAlias (PMarker ContextRef) [item]).

(** Subscripting a marker class dispatches to its metaclass. *)
Definition marker_getitem (m : marker) (item : pyobj) : result pyobj :=
  match m with
  | Ref => _RefMeta_getitem item
  | Attr => _AttrMeta_getitem item
  | RefList => _RefListMeta_getitem item
  | RefDict => _RefDictMeta_getitem item
  | ContextRef => _ContextRefMeta_getitem item
  end.

(** *** The host's [typing.Union[...]]

    [_GenericAlias.__or__] delegates to [typing.Union], which is part of the
    Python standard library: it replaces [None] by [type(None)] and strings
    by forward references, flattens nested unions, removes duplicates keeping
    the first occurrence, and returns the single remaining member when there
    is only one. *)
Definition _type_check (p : pyobj) : pyobj :=
  match p with
  | PNone => NoneType
  | PStr s => ForwardRef s
  | _ => p
  end.

Definition _flatten (parameters : list pyobj) : list pyobj :=
  parameters ≫= λ p,
    match p with
    | TypingAlias typing_Union args => args
    | _ => [p]
    end.

Definition _remove_dups (parameters : list pyobj) : list pyobj :=
  reverse (remove_dups (reverse parameters)).

Definition typing_Union_getitem (parameters : list pyobj) : result pyobj :=
  if truthy parameters then
    let parameters := _remove_dups (_flatten (_type_check <$> parameters)) in
    match parameters with
    | [p] => Ok p
    | _ => Ok (TypingAlias typing_Union parameters)
    end
  else Raise TypeError.

(** [_GenericAlias.__or__] and [__ror__]: [self | other], [other | self]. *)
Definition _GenericAlias_or (self other : pyobj) : result pyobj :=
  typing_Union_getitem [self; other].

Definition _GenericAlias_ror (self other : pyobj) : result pyobj :=
  typing_Union_getitem [other; self].

(** ** [_introspection.py] *)

(** [RefInfo]: the frozen dataclass.  [attr] defaults to [None], the flags
    to [False]. *)
Record RefInfo := mkRefInfo {
  field : string;
  target : pyobj;
  attr : pyobj;
  is_list : bool;
  is_dict : bool;
  is_optional : bool;
  is_context : bool;
}.

#[global] Instance RefInfo_eq_dec : EqDecision RefInfo.
Proof. solve_decision. Defined.

(** [typing.get_origin] and [typing.get_args] know typing's own aliases
    only. *)
Definition get_origin (hint : pyobj) : option pyobj :=
  match hint with
  | TypingAlias origin _ => Some origin
  | _ => None
  end.

Definition get_args (hint : pyobj) : list pyobj :=
  match hint with
  | TypingAlias _ args => args
  | _ => []
  end.

(** The attributes [__origin__] and [__args__], when the object has them. *)
Definition getattr_origin (hint : pyobj) : option pyobj :=
  match hint with
  | TypingAlias origin _ | _GenericAlias origin _ => Some origin
  | _ => None
  end.

Definition getattr_args (hint : pyobj) : option (list pyobj) :=
  match hint with
  | TypingAlias _ args | _GenericAlias _ args => Some args
  | _ => None
  end.

Definition _get_origin (hint : pyobj) : option pyobj :=
  let origin := get_origin hint in
  if origin is Some _ then origin
  else if getattr_origin hint is Some o then Some o
  else None.

Definition _get_args (hint : pyobj) : list pyobj :=
  let args := get_args hint in
  if truthy args then args
  else if getattr_args hint is Some result then result
  else [].

Lemma _get_args_size (hint x : pyobj) :
  x ∈ _get_args hint → pyobj_size x < pyobj_size hint.
Proof.
  assert (Hsum : ∀ l : list pyobj, x ∈ l → pyobj_size x ≤ list_sum (map pyobj_size l)).
  { induction l as [|y l IH]; inversion 1; subst; simpl; [lia|].
    specialize (IH ltac:(done)). lia. }
  unfold _get_args.
  destruct hint; simpl; try (by inversion 1);
    (destruct args; simpl; [by inversion 1|]) || idtac;
    (destruct __args__; simpl; [by inversion 1|]) || idtac;
    intros Hx%Hsum; simpl in Hx; lia.
Qed.

(** The members of a union other than [type(None)]. *)
Definition non_none (args : list pyobj) : list pyobj :=
  filter (λ a, a ≠ NoneType) args.

(** [_analyze_type], lines 258-309: the five [if origin is ...] blocks that
    follow the union case. *)
Definition _analyze_marker (name : string) (origin : option pyobj)
    (args : list pyobj) : result (option RefInfo) :=
  if decide (origin = Some (PMarker Ref)) then
    if truthy args then
      a0 ← getitem args 0;
      Ok (Some (mkRefInfo name a0 PNone false false false false))
    else Ok None
  else if decide (origin = Some (PMarker Attr)) then
    if 2 <=? length args then
      attr_name ← getitem args 1;
      let attr_name :=
        if _get_origin attr_name is Some _ then
          let literal_args := _get_args attr_name in
          if truthy literal_args then getitem literal_args 0 else Ok attr_name
        else Ok attr_name in
      attr_name ← attr_name;
      a0 ← getitem args 0;
      Ok (Some (mkRefInfo name a0 attr_name false false false false))
    else Ok None
  else if decide (origin = Some (PMarker RefList)) then
    if truthy args then
      a0 ← getitem args 0;
      Ok (Some (mkRefInfo name a0 PNone true false false false))
    else Ok None
  else if decide (origin = Some (PMarker RefDict)) then
    if 2 <=? length args then
      a1 ← getitem args 1;
      Ok (Some (mkRefInfo name a1 PNone false true false false))
    else Ok None
  else if decide (origin = Some (PMarker ContextRef)) then
    if truthy args then
      context_name ← getitem args 0;
      let context_name :=
        if _get_origin context_name is Some _ then
          let literal_args := _get_args context_name in
          if truthy literal_args then getitem literal_args 0 else Ok context_name
        else Ok context_name in
      context_name ← context_name;
      Ok (Some (mkRefInfo name NoneType context_name false false false true))
    else Ok None
  else Ok None.

(** [_analyze_type], lines 236-256: the union case recurses into the single
    member that is not [type(None)]; every other hint goes to the marker
    blocks. *)
Equations? _analyze_type (name : string) (hint : pyobj) : result (option RefInfo)
  by wf (pyobj_size hint) lt :=
_analyze_type name hint with decide (_get_origin hint = Some typing_Union) := {
  | left _ with inspect (non_none (_get_args hint)) := {
      | exist _ (cons inner nil) Hnn =>
          inner_info ← _analyze_type name inner;
          match inner_info with
          | Some inner_info =>
              Ok (Some (mkRefInfo inner_info.(field) inner_info.(target)
                          inner_info.(attr) inner_info.(is_list)
                          inner_info.(is_dict) true inner_info.(is_context)))
          | None => Ok None
          end
      | _ => Ok None }
  | right _ => _analyze_marker name (_get_origin hint) (_get_args hint) }.
Proof.
  apply _get_args_size.
  assert (Hin : inner ∈ non_none (_get_args hint)) by (rewrite Hnn; left).
  unfold non_none in Hin. by apply list_elem_of_filter in Hin as [_ ?].
Qed.

(** *** Unfolding [_analyze_type] *)

(** What the union case does with the classification of the inner member:
    lines 246-255. *)
Definition mark_optional (inner_info : option RefInfo) : option RefInfo :=
  match inner_info with
  | Some inner_info =>
      Some (mkRefInfo inner_info.(field) inner_info.(target) inner_info.(attr)
              inner_info.(is_list) inner_info.(is_dict) true
              inner_info.(is_context))
  | None => None
  end.

Lemma _analyze_type_union (name : string) (hint inner : pyobj) :
  _get_origin hint = Some typing_Union →
  non_none (_get_args hint) = [inner] →
  _analyze_type name hint =
    inner_info ← _analyze_type name inner; Ok (mark_optional inner_info).
Proof.
  intros Ho Hnn. rewrite _analyze_type_equation_1.
  destruct (decide (_get_origin hint = Some typing_Union)) as [e|]; [|done].
  simpl. generalize (inspect (non_none (_get_args hint))).
  rewrite Hnn. intros [l Hl]. subst l. simpl.
  destruct (_analyze_type name inner) as [[?|]|]; done.
Qed.

Lemma _analyze_type_union_reject (name : string) (hint : pyobj) :
  _get_origin hint = Some typing_Union →
  length (non_none (_get_args hint)) ≠ 1 →
  _analyze_type name hint = Ok None.
Proof.
  intros Ho Hnn. rewrite _analyze_type_equation_1.
  destruct (decide (_get_origin hint = Some typing_Union)) as [e|]; [|done].
  simpl. generalize (inspect (non_none (_get_args hint))).
  destruct (non_none (_get_args hint)) as [|x [|y l]]; intros [l' Hl]; subst l';
    simpl in *; done.
Qed.

Lemma _analyze_type_marker (name : string) (hint : pyobj) :
  _get_origin hint ≠ Some typing_Union →
  _analyze_type name hint = _analyze_marker name (_get_origin hint) (_get_args hint).
Proof.
  intros Ho. rewrite _analyze_type_equation_1.
  by destruct (decide (_get_origin hint = Some typing_Union)).
Qed.

(** *** [_analyze_type] never raises: every index it reads is guarded *)

(** The single-literal-value unwrapping applied to an attribute or context
    name, lines 269-273 and 295-299. *)
Definition unwrap_name (attr_name : pyobj) : result pyobj :=
  if _get_origin attr_name is Some _ then
    let literal_args := _get_args attr_name in
    if truthy literal_args then getitem literal_args 0 else Ok attr_name
  else Ok attr_name.

Lemma unwrap_name_Ok (attr_name : pyobj) : ∃ v, unwrap_name attr_name = Ok v.
Proof.
  unfold unwrap_name. destruct (_get_origin attr_name); [|by eexists].
  simpl. destruct (_get_args attr_name); simpl; by eexists.
Qed.

(** The marker blocks, one equation per shape. *)
Lemma _analyze_marker_Ref (name : string) (a0 : pyobj) (rest : list pyobj) :
  _analyze_marker name (Some (PMarker Ref)) (a0 :: rest)
  = Ok (Some (mkRefInfo name a0 PNone false false false false)).
Proof. reflexivity. Qed.

Lemma _analyze_marker_Attr (name : string) (a0 a1 : pyobj) (rest : list pyobj) :
  _analyze_marker name (Some (PMarker Attr)) (a0 :: a1 :: rest)
  = (attr_name ← unwrap_name a1;
     Ok (Some (mkRefInfo name a0 attr_name false false false false))).
Proof. reflexivity. Qed.

Lemma _analyze_marker_RefList (name : string) (a0 : pyobj) (rest : list pyobj) :
  _analyze_marker name (Some (PMarker RefList)) (a0 :: rest)
  = Ok (Some (mkRefInfo name a0 PNone true false false false)).
Proof. reflexivity. Qed.

Lemma _analyze_marker_RefDict (name : string) (a0 a1 : pyobj) (rest : list pyobj) :
  _analyze_marker name (Some (PMarker RefDict)) (a0 :: a1 :: rest)
  = Ok (Some (mkRefInfo name a1 PNone false true false false)).
Proof. reflexivity. Qed.

Lemma _analyze_marker_ContextRef (name : string) (a0 : pyobj) (rest : list pyobj) :
  _analyze_marker name (Some (PMarker ContextRef)) (a0 :: rest)
  = (context_name ← unwrap_name a0;
     Ok (Some (mkRefInfo name NoneType context_name false false false true))).
Proof. reflexivity. Qed.

(** The number of parameters a marker block asks for before it reads them. *)
Definition required_arity (m : marker) : nat :=
  match m with
  | Ref | RefList | ContextRef => 1
  | Attr | RefDict => 2
  end.

Lemma _analyze_marker_short (name : string) (m : marker) (args : list pyobj) :
  length args < required_arity m →
  _analyze_marker name (Some (PMarker m)) args = Ok None.
Proof.
  destruct m, args as [|a0 [|a1 args]]; simpl; intros Hlen; try lia; reflexivity.
Qed.

Lemma _analyze_marker_other (name : string) (origin : option pyobj)
    (args : list pyobj) :
  (∀ m, origin ≠ Some (PMarker m)) →
  _analyze_marker name origin args = Ok None.
Proof.
  intros Hne. unfold _analyze_marker.
  repeat (case_decide; [by edestruct Hne|]). done.
Qed.

Lemma _analyze_marker_Ok (name : string) (origin : option pyobj) (args : list pyobj) :
  ∃ r, _analyze_marker name origin args = Ok r.
Proof.
  assert ((∃ m, origin = Some (PMarker m)) ∨ ∀ m, origin ≠ Some (PMarker m))
    as [[m ->]|Hne].
  { destruct origin as [[| | | | | |m| | | | |]|];
      try (right; intros m'; congruence). left. by exists m. }
  - destruct (decide (length args < required_arity m)) as [Hlt|Hge].
    + rewrite _analyze_marker_short by done. by eexists.
    + destruct m, args as [|a0 [|a1 args]]; simpl in Hge; try lia.
      all: rewrite ?_analyze_marker_Ref, ?_analyze_marker_Attr,
             ?_analyze_marker_RefList, ?_analyze_marker_RefDict,
             ?_analyze_marker_ContextRef; try by eexists.
      all: match goal with
           | |- context [unwrap_name ?a] =>
               destruct (unwrap_name_Ok a) as [v ->]; by eexists
           end.
  - rewrite _analyze_marker_other by done. by eexists.
Qed.

Lemma _analyze_type_Ok (name : string) (hint : pyobj) :
  ∃ r, _analyze_type name hint = Ok r.
Proof.
  assert (∀ n hint, pyobj_size hint < n → ∃ r, _analyze_type name hint = Ok r)
    as Hall; [|apply (Hall (S (pyobj_size hint))); lia].
  clear hint. induction n as [|n IH]; intros hint Hn; [lia|].
  destruct (decide (_get_origin hint = Some typing_Union)) as [Ho|Ho].
  - destruct (non_none (_get_args hint)) as [|inner [|y l]] eqn:Hnn.
    + exists None. apply _analyze_type_union_reject; [done|by rewrite Hnn].
    + rewrite (_analyze_type_union _ _ inner) by done.
      assert (pyobj_size inner < pyobj_size hint) as Hlt.
      { apply _get_args_size. assert (inner ∈ non_none (_get_args hint)) as Hin
          by (rewrite Hnn; left).
        unfold non_none in Hin. by apply list_elem_of_filter in Hin as [_ ?]. }
      destruct (IH inner) as [r ->]; [lia|]. by eexists.
    + exists None. apply _analyze_type_union_reject; [done|by rewrite Hnn].
  - rewrite _analyze_type_marker by done. apply _analyze_marker_Ok.
Qed.

(** *** The host's [typing.get_type_hints]

    Resolving the annotations of a class (inheritance, forward references) is
    the host's work.  The host is a finite table: for each object it knows,
    either the resolved field-name to declared-type mapping or the exception
    that resolution raises; on every other object [get_type_hints] raises. *)
Abbreviation host := (gmap pyobj (result (gmap string pyobj))).

Definition get_type_hints (H : host) (cls : pyobj) : result (gmap string pyobj) :=
  match H !! cls with
  | Some outcome => outcome
  | None => Raise TypeError
  end.

(** [get_refs]. *)
Definition get_refs (H : host) (cls : pyobj) : result (gmap string RefInfo) :=
  let refs : gmap string RefInfo := ∅ in
  match get_type_hints H cls with
  | Raise _ => Ok refs
  | Ok hints =>
      map_fold (λ name hint (acc : result (gmap string RefInfo)),
                  refs ← acc;
                  info ← _analyze_type name hint;
                  if info is Some info then Ok (<[name := info]> refs)
                  else Ok refs)
               (Ok refs) hints
  end.

(** [get_dependencies], lines 389-396: what the call computes before it
    looks at [transitive], and so what
    [get_dependencies(current, transitive=False)] returns. *)
Definition direct_dependencies (H : host) (cls : pyobj) : result (gset pyobj) :=
  refs ← get_refs H cls;
  let deps : gset pyobj :=
    list_to_set (target <$> filter (λ info, is_context info = false)
                                   (map_to_list refs).*2) in
  let deps := deps ∖ {[NoneType]} in
  Ok deps.

(** Iterating over a Python set yields its elements in an order the language
    does not fix. *)
Class SetIteration := {
  iter : gset pyobj → list pyobj;
  iter_perm : ∀ s, iter s ≡ₚ elements s;
}.

(** [list.pop()]: removes and returns the last item. *)
Definition pop {A} (l : list A) : result (list A * A) :=
  match reverse l with
  | x :: r => Ok (reverse r, x)
  | [] => Raise IndexError
  end.

(** The variables of the transitive loop; [expanded] is a ghost log of the
    types whose own dependencies were computed, in order. *)
Record loop_state := mkLoop {
  visited : gset pyobj;
  to_visit : list pyobj;
  expanded : list pyobj;
}.

(** *** First facts about the loop's ingredients *)

Lemma pop_Ok {A} (l l' : list A) (x : A) : pop l = Ok (l', x) → l = l' ++ [x].
Proof.
  unfold pop. destruct (reverse l) as [|y r] eqn:Hr; [done|].
  intros [= <- <-]. rewrite <- (reverse_involutive l), Hr.
  by rewrite reverse_cons.
Qed.

Lemma pop_snoc {A} (l : list A) (x : A) : pop (l ++ [x]) = Ok (l, x).
Proof. unfold pop. by rewrite reverse_snoc, reverse_involutive. Qed.

Lemma pop_truthy {A} (l : list A) : truthy l = true → ∃ l' x, pop l = Ok (l', x).
Proof.
  destruct l as [|a l] using rev_ind; [done|]. intros _.
  eexists _, _. apply pop_snoc.
Qed.

Lemma get_refs_unknown (H : host) (cls : pyobj) :
  H !! cls = None → get_refs H cls = Ok ∅.
Proof. intros Hc. unfold get_refs, get_type_hints. by rewrite Hc. Qed.

Lemma direct_dependencies_unknown (H : host) (cls : pyobj) :
  H !! cls = None → direct_dependencies H cls = Ok ∅.
Proof.
  intros Hc. unfold direct_dependencies. rewrite get_refs_unknown by done.
  simpl. rewrite map_to_list_empty. simpl. f_equal; set_solver.
Qed.

(** *** What [get_refs] returns *)

(** The classification of one declared type, as [get_refs] reads it. *)
Definition classification (name : string) (hint : pyobj) : option RefInfo :=
  match _analyze_type name hint with
  | Ok info => info
  | Raise _ => None
  end.

Lemma _analyze_type_classification (name : string) (hint : pyobj) :
  _analyze_type name hint = Ok (classification name hint).
Proof.
  unfold classification. by destruct (_analyze_type_Ok name hint) as [r ->].
Qed.

Lemma get_refs_hints (H : host) (cls : pyobj) (hints : gmap string pyobj) :
  get_type_hints H cls = Ok hints →
  ∃ refs, get_refs H cls = Ok refs
          ∧ ∀ name, refs !! name = hints !! name ≫= classification name.
Proof.
  intros Hh. unfold get_refs. rewrite Hh.
  apply (map_fold_weak_ind
    (λ (r : result (gmap string RefInfo)) (m : gmap string pyobj),
       ∃ refs, r = Ok refs ∧ ∀ name, refs !! name = m !! name ≫= classification name)).
  - exists ∅. split; [done|]. intros name. by rewrite !lookup_empty.
  - intros i x m r Hi (refs & -> & Hrefs). simpl.
    rewrite _analyze_type_classification. simpl.
    destruct (classification i x) as [info|] eqn:Hc.
    + exists (<[i:=info]> refs). split; [done|]. intros name.
      destruct (decide (i = name)) as [->|Hne].
      * rewrite !lookup_insert_eq. simpl. by rewrite Hc.
      * rewrite !lookup_insert_ne by done. apply Hrefs.
    + exists refs. split; [done|]. intros name.
      destruct (decide (i = name)) as [->|Hne].
      * rewrite lookup_insert_eq, Hrefs, Hi. simpl. by rewrite Hc.
      * rewrite lookup_insert_ne by done. apply Hrefs.
Qed.

Lemma get_refs_raise (H : host) (cls : pyobj) (e : exn) :
  get_type_hints H cls = Raise e → get_refs H cls = Ok ∅.
Proof. intros Hh. unfold get_refs. by rewrite Hh. Qed.

Lemma get_refs_Ok (H : host) (cls : pyobj) : ∃ refs, get_refs H cls = Ok refs.
Proof.
  destruct (get_type_hints H cls) as [hints|e] eqn:Hh.
  - destruct (get_refs_hints H cls hints Hh) as (refs & ? & _). by exists refs.
  - exists ∅. by eapply get_refs_raise.
Qed.

(** *** What the direct dependencies are *)

Lemma elem_of_direct_dependencies (H : host) (cls : pyobj)
    (refs : gmap string RefInfo) (deps : gset pyobj) (x : pyobj) :
  get_refs H cls = Ok refs →
  direct_dependencies H cls = Ok deps →
  x ∈ deps ↔
    x ≠ NoneType
    ∧ ∃ name info, refs !! name = Some info
                   ∧ is_context info = false ∧ target info = x.
Proof.
  intros Hr. unfold direct_dependencies. rewrite Hr. simpl. intros [= <-].
  rewrite elem_of_difference, elem_of_singleton, elem_of_list_to_set.
  rewrite list_elem_of_fmap. split.
  - intros [(info & -> & Hin) Hne]. split; [done|].
    apply list_elem_of_filter in Hin as [Hctx Hin].
    apply list_elem_of_fmap in Hin as ([name info'] & -> & Hin).
    apply elem_of_map_to_list in Hin. by exists name, info'.
  - intros [Hne (name & info & Hl & Hctx & <-)]. split; [|done].
    exists info. split; [done|]. apply list_elem_of_filter. split; [done|].
    apply list_elem_of_fmap. exists (name, info). split; [done|].
    by apply elem_of_map_to_list.
Qed.

Lemma direct_dependencies_Ok (H : host) (cls : pyobj) :
  ∃ deps, direct_dependencies H cls = Ok deps.
Proof.
  unfold direct_dependencies. destruct (get_refs_Ok H cls) as [refs ->].
  by eexists.
Qed.

Section transitive.
Context `{SetIteration}.
Variable H0 : host.

(** One iteration of [while to_visit:], lines 403-414. *)
Definition loop_body (s : loop_state) : result loop_state :=
  '(to_visit, current) ← pop s.(to_visit);
  if decide (current ∈ s.(visited)) then
    Ok (mkLoop s.(visited) to_visit s.(expanded))
  else
    let visited := {[current]} ∪ s.(visited) in
    let to_visit :=
      match direct_dependencies H0 current with
      | Ok nested_deps => to_visit ++ iter (nested_deps ∖ visited)
      | Raise _ => to_visit
      end in
    Ok (mkLoop visited to_visit (s.(expanded) ++ [current])).

(** Every type a table entry refers to. *)
Definition universe : gset pyobj :=
  ⋃ ((λ cls, if direct_dependencies H0 cls is Ok deps then deps else ∅)
       <$> elements (dom H0)).

(** What is left to do: the types not yet visited count most, the length of
    the work list breaks ties. *)
Definition remaining (s : loop_state) : nat :=
  size ((universe ∪ list_to_set s.(to_visit)) ∖ s.(visited)) * S (size universe)
  + length s.(to_visit).

Lemma direct_dependencies_universe (cls : pyobj) (deps : gset pyobj) :
  direct_dependencies H0 cls = Ok deps → deps ⊆ universe.
Proof.
  intros Hd. destruct (H0 !! cls) as [r|] eqn:Hc.
  - intros x Hx. unfold universe. apply elem_of_union_list.
    exists deps. split; [|done]. apply list_elem_of_fmap.
    exists cls. rewrite Hd. split; [done|].
    apply elem_of_elements, elem_of_dom. by exists r.
  - rewrite direct_dependencies_unknown in Hd by done.
    injection Hd as <-. set_solver.
Qed.

Lemma length_iter (s : gset pyobj) : length (iter s) = size s.
Proof. by rewrite (Permutation_length (iter_perm s)). Qed.

Lemma elem_of_iter (s : gset pyobj) (x : pyobj) : x ∈ iter s ↔ x ∈ s.
Proof. by rewrite (iter_perm s), elem_of_elements. Qed.

Lemma NoDup_iter (s : gset pyobj) : NoDup (iter s).
Proof. rewrite (iter_perm s). apply NoDup_elements. Qed.

Lemma loop_body_remaining (s s' : loop_state) :
  loop_body s = Ok s' → remaining s' < remaining s.
Proof.
  unfold loop_body. destruct (pop (to_visit s)) as [[rest current]|] eqn:Hpop;
    simpl; [|done].
  apply pop_Ok in Hpop. unfold remaining.
  destruct (decide (current ∈ visited s)) as [Hin|Hnin]; intros [= <-]; simpl.
  - rewrite Hpop, length_app. simpl.
    assert ((universe ∪ list_to_set rest) ∖ visited s
            ⊆ (universe ∪ list_to_set (rest ++ [current])) ∖ visited s) as Hsub
      by (rewrite list_to_set_app_L; set_solver).
    apply subseteq_size in Hsub.
    apply Nat.mul_le_mono_r with (p := S (size universe)) in Hsub. lia.
  - set (todo := match direct_dependencies H0 current with
                 | Ok nested_deps =>
                     rest ++ iter (nested_deps ∖ ({[current]} ∪ visited s))
                 | Raise _ => rest
                 end).
    assert (list_to_set todo ⊆ universe ∪ list_to_set (C := gset pyobj) rest
            ∧ length todo ≤ length rest + size universe) as [Hset Hlen].
    { subst todo. destruct (direct_dependencies H0 current) as [nd|] eqn:Hd.
      - apply direct_dependencies_universe in Hd. split.
        + intros x. rewrite elem_of_list_to_set, elem_of_app, elem_of_iter.
          rewrite elem_of_union, elem_of_list_to_set. set_solver.
        + rewrite length_app, length_iter.
          assert (size (nd ∖ ({[current]} ∪ visited s)) ≤ size universe)
            by (apply subseteq_size; set_solver).
          lia.
      - split; [set_solver|lia]. }
    assert ((universe ∪ list_to_set todo) ∖ ({[current]} ∪ visited s)
            ⊂ (universe ∪ list_to_set (to_visit s)) ∖ visited s) as Hlt.
    { rewrite Hpop, list_to_set_app_L. split; [set_solver|].
      intros Hsub. specialize (Hsub current). set_solver. }
    apply subset_size in Hlt.
    assert (length (to_visit s) = length rest + 1) as ->
      by (by rewrite Hpop, length_app).
    remember (size ((universe ∪ list_to_set todo) ∖ ({[current]} ∪ visited s))) as a.
    remember (size ((universe ∪ list_to_set (to_visit s)) ∖ visited s)) as b.
    assert (S a * S (size universe) ≤ b * S (size universe)) as Hmul
      by (apply Nat.mul_le_mono_r; lia).
    rewrite Nat.mul_succ_l in Hmul. lia.
Qed.

(** [while to_visit:], lines 402-414. *)
Equations? while_loop (s : loop_state) : result loop_state
  by wf (remaining s) lt :=
while_loop s with inspect (truthy s.(to_visit)) := {
  | exist _ true _ with inspect (loop_body s) := {
      | exist _ (Ok s') Hbody => while_loop s'
      | exist _ (Raise e) _ => Raise e }
  | exist _ false _ => Ok s }.
Proof. by apply loop_body_remaining. Qed.

(** [get_dependencies]. *)
Definition get_dependencies (cls : pyobj) (transitive : bool) : result (gset pyobj) :=
  deps ← direct_dependencies H0 cls;
  if negb transitive then Ok deps
  else
    s ← while_loop (mkLoop ∅ (iter deps) []);
    Ok s.(visited).

(** *** Reasoning about the loop *)

Lemma while_loop_step (s : loop_state) :
  while_loop s =
    if truthy s.(to_visit) then s' ← loop_body s; while_loop s' else Ok s.
Proof.
  rewrite while_loop_equation_1. simpl.
  destruct (truthy (to_visit s)); simpl; [|done].
  generalize (inspect (loop_body s)). intros [r Hr].
  destruct r as [s'|e]; simpl; by rewrite Hr.
Qed.

Lemma loop_body_Ok (s : loop_state) :
  truthy s.(to_visit) = true → ∃ s', loop_body s = Ok s'.
Proof.
  intros (rest & current & Hpop)%pop_truthy. unfold loop_body. rewrite Hpop.
  simpl. case_decide; by eexists.
Qed.

(** The loop returns, and whatever one iteration preserves holds when it
    does, with an empty work list. *)
Lemma while_loop_invariant (P : loop_state → Prop) (s : loop_state) :
  (∀ s s', P s → truthy s.(to_visit) = true → loop_body s = Ok s' → P s') →
  P s →
  ∃ s', while_loop s = Ok s' ∧ P s' ∧ s'.(to_visit) = [].
Proof.
  intros Hstep.
  assert (∀ n s, remaining s < n → P s →
                 ∃ s', while_loop s = Ok s' ∧ P s' ∧ to_visit s' = []) as Hall;
    [|apply (Hall (S (remaining s))); lia].
  clear s. induction n as [|n IH]; intros s Hn Hs; [lia|].
  rewrite while_loop_step. destruct (truthy (to_visit s)) eqn:Ht.
  - destruct (loop_body_Ok s Ht) as [s' Hb]. rewrite Hb. simpl.
    apply IH; [|by eapply Hstep].
    apply loop_body_remaining in Hb. lia.
  - exists s. destruct (to_visit s); done.
Qed.

(** The types [cls] depends on directly, and the types it reaches. *)
Definition deps_of (cls : pyobj) : gset pyobj :=
  if direct_dependencies H0 cls is Ok deps then deps else ∅.

Definition depends (x y : pyobj) : Prop := y ∈ deps_of x.

Definition reachable (cls : pyobj) : pyobj → Prop := tc depends cls.

Definition loop_invariant (cls : pyobj) (s : loop_state) : Prop :=
  (∀ y, y ∈ s.(visited) → reachable cls y)
  ∧ (∀ y, y ∈ s.(to_visit) → reachable cls y)
  ∧ (∀ y, y ∈ deps_of cls → y ∈ s.(visited) ∨ y ∈ s.(to_visit))
  ∧ (∀ x y, x ∈ s.(visited) → y ∈ deps_of x →
            y ∈ s.(visited) ∨ y ∈ s.(to_visit))
  ∧ NoDup s.(expanded)
  ∧ (∀ y, y ∈ s.(expanded) ↔ y ∈ s.(visited)).

Lemma loop_invariant_init (cls : pyobj) :
  loop_invariant cls (mkLoop ∅ (iter (deps_of cls)) []).
Proof.
  unfold loop_invariant. simpl. repeat split.
  - set_solver.
  - intros y Hy%elem_of_iter. by apply tc_once.
  - intros y Hy. right. by apply elem_of_iter.
  - set_solver.
  - constructor.
  - by intros ?%not_elem_of_nil.
  - set_solver.
Qed.

Lemma loop_invariant_step (cls : pyobj) (s s' : loop_state) :
  loop_invariant cls s → loop_body s = Ok s' → loop_invariant cls s'.
Proof.
  intros (Hv & Ht & Hd & Hc & Hnd & Hex). unfold loop_body.
  destruct (pop (to_visit s)) as [[rest current]|] eqn:Hpop; simpl; [|done].
  apply pop_Ok in Hpop. rewrite Hpop in Ht, Hd, Hc.
  setoid_rewrite elem_of_app in Ht. setoid_rewrite elem_of_app in Hd.
  setoid_rewrite elem_of_app in Hc.
  setoid_rewrite list_elem_of_singleton in Ht.
  setoid_rewrite list_elem_of_singleton in Hd.
  setoid_rewrite list_elem_of_singleton in Hc.
  destruct (decide (current ∈ visited s)) as [Hin|Hnin]; intros [= <-];
    unfold loop_invariant; simpl.
  - repeat split; try done; try naive_solver.
  - assert (∀ y, y ∈ match direct_dependencies H0 current with
                     | Ok nested_deps =>
                         rest ++ iter (nested_deps ∖ ({[current]} ∪ visited s))
                     | Raise _ => rest
                     end
                 ↔ y ∈ rest ∨ (y ∈ deps_of current ∧ y ≠ current ∧ y ∉ visited s))
      as Htodo.
    { intros y. unfold deps_of.
      destruct (direct_dependencies H0 current) as [nd|].
      - rewrite elem_of_app, elem_of_iter. set_solver.
      - set_solver. }
    setoid_rewrite Htodo. setoid_rewrite elem_of_union.
    setoid_rewrite elem_of_singleton.
    repeat split.
    + intros y [->|Hy]; [|by apply Hv]. apply Ht. by right.
    + intros y [Hy|(Hy & _ & _)]; [apply Ht; by left|].
      eapply tc_r; [apply Ht; by right|done].
    + intros y Hy. destruct (decide (y = current)) as [->|Hne]; [by left; left|].
      destruct (Hd y Hy) as [?|[?|?]]; [by left; right|by right; left|done].
    + intros x y [->|Hx] Hy.
      * destruct (decide (y = current)) as [->|Hne]; [by left; left|].
        destruct (decide (y ∈ visited s)); [by left; right|]. right. by right.
      * destruct (decide (y = current)) as [->|Hne]; [by left; left|].
        destruct (Hc x y Hx Hy) as [?|[?|?]];
          [by left; right|by right; left|done].
    + apply NoDup_app. split; [done|]. split; [|apply NoDup_singleton].
      intros y Hy Hc'%list_elem_of_singleton. subst y. by apply Hnin, Hex.
    + intros [Hy|Hy%list_elem_of_singleton]%elem_of_app;
        [right; by apply Hex|by left].
    + intros [->|Hy]; apply elem_of_app; [right; by left|left; by apply Hex].
Qed.

Lemma loop_invariant_final (cls : pyobj) (s : loop_state) (y : pyobj) :
  loop_invariant cls s → s.(to_visit) = [] →
  y ∈ s.(visited) ↔ reachable cls y.
Proof.
  intros (Hv & _ & Hd & Hc & _ & _) Hnil. rewrite Hnil in Hd, Hc.
  split; [apply Hv|]. intros Hr.
  assert (∀ x, tc depends x y → x = cls ∨ x ∈ visited s → y ∈ visited s)
    as Hall; [|eapply Hall; [done|by left]].
  clear Hr. intros x Hxy. induction Hxy as [x y Hxy|x z y Hxz _ IH].
  - intros [->|Hx].
    + destruct (Hd _ Hxy) as [?|?%not_elem_of_nil]; done.
    + destruct (Hc _ _ Hx Hxy) as [?|?%not_elem_of_nil]; done.
  - intros Hx. apply IH. right. destruct Hx as [->|Hx].
    + destruct (Hd _ Hxz) as [?|?%not_elem_of_nil]; done.
    + destruct (Hc _ _ Hx Hxz) as [?|?%not_elem_of_nil]; done.
Qed.

(** The transitive mode returns, its result is the set of types reachable
    from [cls] along direct dependencies, and the log of expansions has no
    repetition and lists exactly the returned types. *)
Lemma get_dependencies_transitive (cls : pyobj) :
  ∃ s, while_loop (mkLoop ∅ (iter (deps_of cls)) []) = Ok s
       ∧ get_dependencies cls true = Ok s.(visited)
       ∧ s.(to_visit) = []
       ∧ (∀ y, y ∈ s.(visited) ↔ reachable cls y)
       ∧ NoDup s.(expanded)
       ∧ (∀ y, y ∈ s.(expanded) ↔ y ∈ s.(visited)).
Proof.
  destruct (while_loop_invariant (loop_invariant cls)
              (mkLoop ∅ (iter (deps_of cls)) [])) as (s & Hs & Hinv & Hnil).
  { intros s s' Hi _ Hb. by eapply loop_invariant_step. }
  { apply loop_invariant_init. }
  exists s. split; [done|]. split; [|split; [done|split; [|split]]].
  - unfold get_dependencies. unfold deps_of in Hs.
    destruct (direct_dependencies_Ok H0 cls) as [deps Hd]. rewrite Hd in Hs |- *.
    simpl. by rewrite Hs.
  - intros y. by apply loop_invariant_final.
  - apply Hinv.
  - apply Hinv.
Qed.

Lemma get_dependencies_direct (cls : pyobj) :
  get_dependencies cls false = Ok (deps_of cls).
Proof.
  unfold get_dependencies, deps_of.
  by destruct (direct_dependencies_Ok H0 cls) as [deps ->].
Qed.
End transitive.

(** ** Properties of the marker shapes and of the classification *)

(** *** Optional wrapping *)

Lemma _remove_dups_pair (x y : pyobj) : x ≠ y → _remove_dups [x; y] = [x; y].
Proof.
  intros Hne. unfold _remove_dups. cbn.
  destruct (decide_rel elem_of y [x]) as [Hin%list_elem_of_singleton|_]; [done|].
  by destruct (decide_rel elem_of x []) as [Hin%not_elem_of_nil|_].
Qed.

#[local] Arguments _remove_dups : simpl never.

Lemma _GenericAlias_or_None (origin : pyobj) (args : list pyobj) :
  _GenericAlias_or (_GenericAlias origin args) PNone
  = Ok (TypingAlias typing_Union [_GenericAlias origin args; NoneType]).
Proof.
  unfold _GenericAlias_or, typing_Union_getitem. cbn.
  by rewrite _remove_dups_pair.
Qed.

Lemma _GenericAlias_ror_None (origin : pyobj) (args : list pyobj) :
  _GenericAlias_ror (_GenericAlias origin args) PNone
  = Ok (TypingAlias typing_Union [NoneType; _GenericAlias origin args]).
Proof.
  unfold _GenericAlias_ror, typing_Union_getitem. cbn.
  by rewrite _remove_dups_pair.
Qed.

Lemma marker_getitem_alias (m : marker) (item alias : pyobj) :
  marker_getitem m item = Ok alias →
  ∃ args, alias = _GenericAlias (PMarker m) args
          ∧ match m with
            | Ref | RefList | ContextRef => args = [item]
            | Attr | RefDict => length args = 2 ∧ item = PTuple args
            end.
Proof.
  destruct m; simpl;
    unfold _RefMeta_getitem, _AttrMeta_getitem, _RefListMeta_getitem,
           _RefDictMeta_getitem, _ContextRefMeta_getitem.
  1,3,5: intros [= <-]; by eexists.
  all: destruct item as [| | |items| | | | | | | |]; simpl; try done;
    destruct (length items =? 2) eqn:Hlen; simpl; try done;
    intros [= <-]; exists items; by apply Nat.eqb_eq in Hlen.
Qed.

(** A marker applied through its subscript operation always classifies. *)
Lemma _analyze_type_alias (name : string) (m : marker) (item alias : pyobj) :
  marker_getitem m item = Ok alias →
  ∃ info, _analyze_type name alias = Ok (Some info)
          ∧ info.(field) = name
          ∧ info.(is_optional) = false
          ∧ info.(is_context) = bool_decide (m = ContextRef).
Proof.
  intros (args & -> & Hargs)%marker_getitem_alias.
  rewrite _analyze_type_marker by done.
  change (_get_origin (_GenericAlias (PMarker m) args)) with (Some (PMarker m)).
  change (_get_args (_GenericAlias (PMarker m) args)) with args.
  destruct m; simpl in Hargs.
  - subst args. rewrite _analyze_marker_Ref. by eexists.
  - destruct Hargs as [Hlen _]. destruct args as [|a0 [|a1 [|]]]; try done.
    rewrite _analyze_marker_Attr. destruct (unwrap_name_Ok a1) as [v ->].
    by eexists.
  - subst args. rewrite _analyze_marker_RefList. by eexists.
  - destruct Hargs as [Hlen _]. destruct args as [|a0 [|a1 [|]]]; try done.
    rewrite _analyze_marker_RefDict. by eexists.
  - subst args. rewrite _analyze_marker_ContextRef.
    destruct (unwrap_name_Ok item) as [v ->]. by eexists.
Qed.

Lemma _analyze_type_optional (name : string) (inner : pyobj) :
  inner ≠ NoneType →
  _analyze_type name (TypingAlias typing_Union [inner; NoneType])
  = (inner_info ← _analyze_type name inner; Ok (mark_optional inner_info))
  ∧ _analyze_type name (TypingAlias typing_Union [NoneType; inner])
    = (inner_info ← _analyze_type name inner; Ok (mark_optional inner_info)).
Proof.
  intros Hne. split; apply _analyze_type_union; try done.
  - change (non_none [inner; NoneType] = [inner]). unfold non_none.
    rewrite filter_cons_True by done. by rewrite filter_cons_False by naive_solver.
  - change (non_none [NoneType; inner] = [inner]). unfold non_none.
    rewrite filter_cons_False by naive_solver. by rewrite filter_cons_True by done.
Qed.

(** C4. A marker shape applied to its parameters and wrapped in the optional
    convention ([alias | None] or [None | alias]) is classified with the
    optional flag true, and its field name, target, attribute, list flag, map
    flag and context flag are those of the classification of the marker
    alone. *)
Theorem optional_wrapping_preserves_classification
    (name : string) (m : marker) (item alias wrapped : pyobj) :
  marker_getitem m item = Ok alias →
  _GenericAlias_or alias PNone = Ok wrapped
  ∨ _GenericAlias_ror alias PNone = Ok wrapped →
  ∃ inner_info info,
    _analyze_type name alias = Ok (Some inner_info)
    ∧ _analyze_type name wrapped = Ok (Some info)
    ∧ info.(is_optional) = true
    ∧ info.(field) = inner_info.(field)
    ∧ info.(target) = inner_info.(target)
    ∧ info.(attr) = inner_info.(attr)
    ∧ info.(is_list) = inner_info.(is_list)
    ∧ info.(is_dict) = inner_info.(is_dict)
    ∧ info.(is_context) = inner_info.(is_context).
Proof.
  intros Halias Hwrap.
  destruct (_analyze_type_alias name m item alias Halias) as (inner_info & Hinner & _).
  apply marker_getitem_alias in Halias as (args & -> & _).
  rewrite _GenericAlias_or_None, _GenericAlias_ror_None in Hwrap.
  destruct (_analyze_type_optional name (_GenericAlias (PMarker m) args))
    as [Hl Hr]; [done|].
  exists inner_info, (mkRefInfo inner_info.(field) inner_info.(target)
                        inner_info.(attr) inner_info.(is_list)
                        inner_info.(is_dict) true inner_info.(is_context)).
  split; [done|]. split; [|done].
  destruct Hwrap as [[= <-]|[= <-]]; [rewrite Hl|rewrite Hr];
    by rewrite Hinner.
Qed.

Lemma optional_wrapping_preserves_classification_witness :
  ∃ inner_info info,
    _analyze_type "role_arn"
      (_GenericAlias (PMarker Attr)
         [PClass "Role"; TypingAlias typing_Literal [PStr "Arn"]])
    = Ok (Some inner_info)
    ∧ _analyze_type "role_arn"
        (TypingAlias typing_Union
           [_GenericAlias (PMarker Attr)
              [PClass "Role"; TypingAlias typing_Literal [PStr "Arn"]];
            NoneType])
      = Ok (Some info)
    ∧ info.(is_optional) = true
    ∧ info.(field) = inner_info.(field)
    ∧ info.(target) = inner_info.(target)
    ∧ info.(attr) = inner_info.(attr)
    ∧ info.(is_list) = inner_info.(is_list)
    ∧ info.(is_dict) = inner_info.(is_dict)
    ∧ info.(is_context) = inner_info.(is_context).
Proof.
  apply (optional_wrapping_preserves_classification "role_arn" Attr
           (PTuple [PClass "Role"; TypingAlias typing_Literal [PStr "Arn"]])).
  - reflexivity.
  - left. vm_compute. reflexivity.
Defined.

(** *** Unions that are not the optional convention *)

(** [typing.Union] never keeps a member twice, so a union holds
    [type(None)] at most once. *)
Lemma non_none_length (args : list pyobj) :
  NoDup args → length args ≤ S (length (non_none args)).
Proof.
  unfold non_none. induction 1 as [|x l Hx Hl IH]; simpl; [lia|].
  destruct (decide (x = NoneType)) as [->|Hne].
  - rewrite filter_cons_False by naive_solver.
    assert (filter (λ a, a ≠ NoneType) l = l) as ->; [|lia].
    clear IH Hl. induction l as [|y l IH]; [done|].
    rewrite filter_cons_True by set_solver. f_equal. apply IH. set_solver.
  - rewrite filter_cons_True by done. simpl. lia.
Qed.

Lemma typing_Union_getitem_NoDup (parameters : list pyobj) (u : pyobj) :
  typing_Union_getitem parameters = Ok u →
  length (_remove_dups (_flatten (_type_check <$> parameters))) ≠ 1 →
  ∃ args, u = TypingAlias typing_Union args ∧ NoDup args.
Proof.
  unfold typing_Union_getitem. destruct (truthy parameters); [|done].
  assert (NoDup (_remove_dups (_flatten (_type_check <$> parameters)))) as Hnd
    by (unfold _remove_dups; rewrite reverse_Permutation; apply NoDup_remove_dups).
  destruct (_remove_dups (_flatten (_type_check <$> parameters)))
    as [|x [|y l]]; intros [= <-] Hlen; try done; by eexists.
Qed.

(** The classes of the union tests. *)
Definition Network := PClass "Network".
Definition NetworkA := PClass "NetworkA".
Definition NetworkB := PClass "NetworkB".
Definition str := PClass "str".
Definition int := PClass "int".

(** [Ref[Network] | str], [Ref[NetworkA] | Ref[NetworkB]] and
    [Ref[Network] | None | int] as the host builds them; the last one goes
    through the union's own [|], which is [typing.Union] again. *)
Definition MixedUnion_network : pyobj :=
  TypingAlias typing_Union [_GenericAlias (PMarker Ref) [Network]; str].
Definition DoubleRef_network : pyobj :=
  TypingAlias typing_Union
    [_GenericAlias (PMarker Ref) [NetworkA]; _GenericAlias (PMarker Ref) [NetworkB]].
Definition TripleUnion_network : pyobj :=
  TypingAlias typing_Union [_GenericAlias (PMarker Ref) [Network]; NoneType; int].

Example MixedUnion_network_declared :
  (alias ← marker_getitem Ref Network; _GenericAlias_or alias str)
  = Ok MixedUnion_network.
Proof. vm_compute. reflexivity. Qed.

Example DoubleRef_network_declared :
  (a ← marker_getitem Ref NetworkA; b ← marker_getitem Ref NetworkB;
   _GenericAlias_or a b)
  = Ok DoubleRef_network.
Proof. vm_compute. reflexivity. Qed.

Example TripleUnion_network_declared :
  (alias ← marker_getitem Ref Network; optional ← _GenericAlias_or alias PNone;
   typing_Union_getitem [optional; int])
  = Ok TripleUnion_network.
Proof. vm_compute. reflexivity. Qed.

(** One class per test, each with the single field [network]. *)
Definition MixedUnion := PClass "MixedUnion".
Definition DoubleRef := PClass "DoubleRef".
Definition TripleUnion := PClass "TripleUnion".

Definition union_tests : host :=
  <[MixedUnion := Ok {["network" := MixedUnion_network]}]>
  (<[DoubleRef := Ok {["network" := DoubleRef_network]}]>
  (<[TripleUnion := Ok {["network" := TripleUnion_network]}]> ∅)).

(** C5. A field declared as a union with more than one member other than
    [type(None)], or with more than two members, is not classified as a
    reference, and [get_refs] has no entry for it.  For the count of all
    members to matter they are pairwise distinct, as [typing.Union] builds
    them. *)
Theorem union_beyond_optional_not_classified
    (H : host) (cls : pyobj) (hints : gmap string pyobj) (name : string)
    (args : list pyobj) :
  get_type_hints H cls = Ok hints →
  hints !! name = Some (TypingAlias typing_Union args) →
  1 < length (non_none args) ∨ (NoDup args ∧ 2 < length args) →
  _analyze_type name (TypingAlias typing_Union args) = Ok None
  ∧ ∃ refs, get_refs H cls = Ok refs ∧ refs !! name = None.
Proof.
  intros Hh Hl Hmany.
  assert (_analyze_type name (TypingAlias typing_Union args) = Ok None) as Hnone.
  { apply _analyze_type_union_reject; [done|].
    change (_get_args (TypingAlias typing_Union args)) with
      (if truthy args then args else args).
    assert (1 < length (non_none args)) as Hlen.
    { destruct Hmany as [?|[Hnd%non_none_length ?]]; lia. }
    destruct args; simpl in *; lia. }
  split; [done|].
  destruct (get_refs_hints H cls hints Hh) as (refs & Hrefs & Hlook).
  exists refs. split; [done|]. rewrite Hlook, Hl. simpl.
  unfold classification. by rewrite Hnone.
Qed.

Lemma union_beyond_optional_not_classified_witness :
  (_analyze_type "network" MixedUnion_network = Ok None
   ∧ ∃ refs, get_refs union_tests MixedUnion = Ok refs ∧ refs !! "network" = None)
  ∧ (_analyze_type "network" DoubleRef_network = Ok None
     ∧ ∃ refs, get_refs union_tests DoubleRef = Ok refs ∧ refs !! "network" = None)
  ∧ (_analyze_type "network" TripleUnion_network = Ok None
     ∧ ∃ refs, get_refs union_tests TripleUnion = Ok refs ∧ refs !! "network" = None).
Proof.
  split; [|split].
  - apply (union_beyond_optional_not_classified union_tests MixedUnion
             {["network" := MixedUnion_network]}).
    + vm_compute. reflexivity.
    + vm_compute. reflexivity.
    + left. vm_compute. lia.
  - apply (union_beyond_optional_not_classified union_tests DoubleRef
             {["network" := DoubleRef_network]}).
    + vm_compute. reflexivity.
    + vm_compute. reflexivity.
    + left. vm_compute. lia.
  - apply (union_beyond_optional_not_classified union_tests TripleUnion
             {["network" := TripleUnion_network]}).
    + vm_compute. reflexivity.
    + vm_compute. reflexivity.
    + right. split; [apply (bool_decide_unpack _); vm_compute; exact I|].
      vm_compute. lia.
Defined.

(** *** Parameter counts *)

(** An alias built directly, bypassing the subscript operations:
    [_GenericAlias(Ref, (NetworkA, NetworkB))]. *)
Definition Ref_two_parameters : pyobj :=
  _GenericAlias (PMarker Ref) [NetworkA; NetworkB].

Definition Surplus := PClass "Surplus".

Definition surplus_host : host :=
  {[Surplus := Ok {["network" := Ref_two_parameters]}]}.

(** C6, as stated, fails: a Reference with two parameters instead of one is
    classified, with the first parameter as target, and [get_refs] has an
    entry for it. *)
Lemma surplus_parameter_still_classified :
  _get_origin Ref_two_parameters = Some (PMarker Ref)
  ∧ length (_get_args Ref_two_parameters) ≠ required_arity Ref
  ∧ _analyze_type "network" Ref_two_parameters
    = Ok (Some (mkRefInfo "network" NetworkA PNone false false false false))
  ∧ ∃ refs, get_refs surplus_host Surplus = Ok refs
            ∧ refs !! "network"
              = Some (mkRefInfo "network" NetworkA PNone false false false false).
Proof.
  split; [done|]. split; [by vm_compute|]. split; [by vm_compute|].
  eexists. split; [vm_compute; reflexivity|]. vm_compute. reflexivity.
Qed.

Lemma _analyze_marker_enough (name : string) (m : marker) (args : list pyobj) :
  required_arity m ≤ length args →
  ∃ info, _analyze_marker name (Some (PMarker m)) args = Ok (Some info)
          ∧ info.(field) = name.
Proof.
  destruct m, args as [|a0 [|a1 args]]; simpl; intros Hlen; try lia.
  all: rewrite ?_analyze_marker_Ref, ?_analyze_marker_Attr,
         ?_analyze_marker_RefList, ?_analyze_marker_RefDict,
         ?_analyze_marker_ContextRef; try by eexists.
  all: match goal with
       | |- context [unwrap_name ?a] =>
           destruct (unwrap_name_Ok a) as [v ->]; by eexists
       end.
Qed.

(** The record a marker block builds from the parameters it reads, lines
    258-307: the target is the first parameter, the second for [RefDict],
    the absence type for [ContextRef]; the attribute is the unwrapped second
    parameter of [Attr], the unwrapped first one of [ContextRef], [None]
    otherwise; each shape sets its own flag and no other. *)
Definition built_from (m : marker) (args : list pyobj) (info : RefInfo) : Prop :=
  match m with
  | Ref =>
      args !! 0 = Some info.(target) ∧ info.(attr) = PNone
      ∧ info.(is_list) = false ∧ info.(is_dict) = false
      ∧ info.(is_context) = false
  | Attr =>
      args !! 0 = Some info.(target)
      ∧ (∃ attr_name, args !! 1 = Some attr_name
                      ∧ unwrap_name attr_name = Ok info.(attr))
      ∧ info.(is_list) = false ∧ info.(is_dict) = false
      ∧ info.(is_context) = false
  | RefList =>
      args !! 0 = Some info.(target) ∧ info.(attr) = PNone
      ∧ info.(is_list) = true ∧ info.(is_dict) = false
      ∧ info.(is_context) = false
  | RefDict =>
      args !! 1 = Some info.(target) ∧ info.(attr) = PNone
      ∧ info.(is_list) = false ∧ info.(is_dict) = true
      ∧ info.(is_context) = false
  | ContextRef =>
      info.(target) = NoneType
      ∧ (∃ context_name, args !! 0 = Some context_name
                         ∧ unwrap_name context_name = Ok info.(attr))
      ∧ info.(is_list) = false ∧ info.(is_dict) = false
      ∧ info.(is_context) = true
  end.

Lemma _analyze_marker_built_from (name : string) (m : marker)
    (args : list pyobj) (info : RefInfo) :
  _analyze_marker name (Some (PMarker m)) args = Ok (Some info) →
  required_arity m ≤ length args
  ∧ info.(field) = name
  ∧ info.(is_optional) = false
  ∧ built_from m args info.
Proof.
  destruct (decide (length args < required_arity m)) as [Hlt|Hge].
  { by rewrite _analyze_marker_short. }
  intros Ha. split; [lia|]. revert Ha.
  destruct m, args as [|a0 [|a1 args]]; simpl in Hge; try lia.
  all: rewrite ?_analyze_marker_Ref, ?_analyze_marker_Attr,
         ?_analyze_marker_RefList, ?_analyze_marker_RefDict,
         ?_analyze_marker_ContextRef.
  all: try match goal with
           | |- context [unwrap_name ?a] =>
               destruct (unwrap_name_Ok a) as [v Hv]; rewrite Hv; simpl
           end.
  all: intros [= <-]; simpl; repeat split; try done; by eexists.
Qed.

(** The parameters after the ones a block reads do not change its record. *)
Lemma _analyze_marker_take (name : string) (m : marker) (args : list pyobj) :
  required_arity m ≤ length args →
  _analyze_marker name (Some (PMarker m)) (take (required_arity m) args)
  = _analyze_marker name (Some (PMarker m)) args.
Proof.
  destruct m, args as [|a0 [|a1 args]]; simpl; intros Hlen; try lia; reflexivity.
Qed.

(** C6, amended. A declared type whose origin is one of the five marker
    shapes and which has fewer parameters than the shape asks for (one for
    Reference, Reference-list and Context-reference, two for
    Attribute-reference and Reference-map) is not classified and has no
    entry in the map.  With at least that many parameters it is classified
    from the leading ones: the record in the map has the field's name, is
    not optional, is the record the shape builds from its first parameter
    (first two for Attribute-reference and Reference-map), and is the very
    record of the same marker applied to the leading parameters alone, so
    that every surplus parameter is ignored. *)
Theorem marker_parameter_count
    (H : host) (cls : pyobj) (hints : gmap string pyobj) (name : string)
    (hint : pyobj) (m : marker) :
  get_type_hints H cls = Ok hints →
  hints !! name = Some hint →
  _get_origin hint = Some (PMarker m) →
  ∃ refs, get_refs H cls = Ok refs
    ∧ (length (_get_args hint) < required_arity m →
       _analyze_type name hint = Ok None ∧ refs !! name = None)
    ∧ (required_arity m ≤ length (_get_args hint) →
       ∃ info, _analyze_type name hint = Ok (Some info)
               ∧ refs !! name = Some info
               ∧ info.(field) = name
               ∧ info.(is_optional) = false
               ∧ built_from m (_get_args hint) info
               ∧ _analyze_type name
                   (_GenericAlias (PMarker m)
                      (take (required_arity m) (_get_args hint)))
                 = Ok (Some info)).
Proof.
  intros Hh Hl Ho.
  destruct (get_refs_hints H cls hints Hh) as (refs & Hrefs & Hlook).
  exists refs. split; [done|]. rewrite Hlook, Hl. simpl. unfold classification.
  rewrite _analyze_type_marker by (rewrite Ho; congruence). rewrite Ho. split.
  - intros Hlt. by rewrite _analyze_marker_short.
  - intros Hge. destruct (_analyze_marker_enough name m _ Hge) as (info & Hinfo & _).
    rewrite Hinfo. exists info. split; [done|]. split; [done|].
    destruct (_analyze_marker_built_from name m _ info Hinfo) as (_ & Hf & Hopt & Hb).
    repeat (split; [done|]).
    rewrite _analyze_type_marker by done.
    change (_get_origin (_GenericAlias (PMarker m)
                           (take (required_arity m) (_get_args hint))))
      with (Some (PMarker m)).
    change (_get_args (_GenericAlias (PMarker m)
                         (take (required_arity m) (_get_args hint))))
      with (take (required_arity m) (_get_args hint)).
    by rewrite _analyze_marker_take.
Qed.

Definition Role := PClass "Role".
Definition Function := PClass "Function".

(** [_GenericAlias(Attr, (Role,))]: one parameter where two are read. *)
Definition Attr_one_parameter : pyobj := _GenericAlias (PMarker Attr) [Role].

(** [_GenericAlias(Attr, (Role, "Arn", "extra"))]: one parameter more than
    the two that are read. *)
Definition Attr_three_parameters : pyobj :=
  _GenericAlias (PMarker Attr) [Role; PStr "Arn"; PStr "extra"].

Definition arity_host : host :=
  {[Function := Ok (<["short" := Attr_one_parameter]>
                    {["role_arn" := Attr_three_parameters]})]}.

Lemma marker_parameter_count_witness :
  (_analyze_type "short" Attr_one_parameter = Ok None
   ∧ ∃ refs, get_refs arity_host Function = Ok refs ∧ refs !! "short" = None)
  ∧ ∃ refs info,
      get_refs arity_host Function = Ok refs
      ∧ _analyze_type "role_arn" Attr_three_parameters = Ok (Some info)
      ∧ refs !! "role_arn" = Some info
      ∧ info.(field) = "role_arn"
      ∧ info.(is_optional) = false
      ∧ built_from Attr [Role; PStr "Arn"; PStr "extra"] info
      ∧ _analyze_type "role_arn" (_GenericAlias (PMarker Attr) [Role; PStr "Arn"])
        = Ok (Some info).
Proof.
  split.
  - destruct (marker_parameter_count arity_host Function
                (<["short" := Attr_one_parameter]>
                 {["role_arn" := Attr_three_parameters]})
                "short" Attr_one_parameter Attr)
      as (refs & Hrefs & Hshort & _).
    + vm_compute. reflexivity.
    + vm_compute. reflexivity.
    + reflexivity.
    + destruct Hshort as [Hnone Hlook]; [simpl; lia|].
      split; [exact Hnone|]. exists refs. split; [exact Hrefs|exact Hlook].
  - destruct (marker_parameter_count arity_host Function
                (<["short" := Attr_one_parameter]>
                 {["role_arn" := Attr_three_parameters]})
                "role_arn" Attr_three_parameters Attr)
      as (refs & Hrefs & _ & Hsurplus).
    + vm_compute. reflexivity.
    + vm_compute. reflexivity.
    + reflexivity.
    + destruct Hsurplus as (info & Hinfo & Hlook & Hrest); [simpl; lia|].
      exists refs, info. split; [exact Hrefs|]. split; [exact Hinfo|].
      split; [exact Hlook|exact Hrest].
Defined.

(** *** Construction-time arity errors *)

(** C7. Subscripting Attr or RefDict with anything but a tuple of exactly two
    items raises [TypeError]. *)
Theorem pair_markers_reject_wrong_arity (args : pyobj) :
  (∀ a b, args ≠ PTuple [a; b]) →
  _AttrMeta_getitem args = Raise TypeError
  ∧ _RefDictMeta_getitem args = Raise TypeError.
Proof.
  intros Hne. unfold _AttrMeta_getitem, _RefDictMeta_getitem.
  destruct args as [| | |[|a [|b [|c items]]]| | | | | | | |]; simpl; try done.
  by destruct (Hne a b).
Qed.

Lemma pair_markers_reject_wrong_arity_witness :
  (_AttrMeta_getitem (PTuple [Role; PStr "Arn"; PStr "extra"]) = Raise TypeError
   ∧ _RefDictMeta_getitem (PTuple [Role; PStr "Arn"; PStr "extra"]) = Raise TypeError)
  ∧ (_AttrMeta_getitem Role = Raise TypeError
     ∧ _RefDictMeta_getitem Role = Raise TypeError).
Proof.
  split.
  - apply (pair_markers_reject_wrong_arity (PTuple [Role; PStr "Arn"; PStr "extra"])).
    intros a b. discriminate.
  - apply (pair_markers_reject_wrong_arity Role). intros a b. discriminate.
Defined.

(** A pair is accepted, and both items are kept. *)
Lemma pair_markers_accept_pairs (a b : pyobj) :
  _AttrMeta_getitem (PTuple [a; b]) = Ok (_GenericAlias (PMarker Attr) [a; b])
  ∧ _RefDictMeta_getitem (PTuple [a; b]) = Ok (_GenericAlias (PMarker RefDict) [a; b]).
Proof. done. Qed.

(** *** Failed resolution *)

Definition Broken := PClass "Broken".
Definition NoAnnotations := PClass "NoAnnotations".

(** The classes of the error-handling tests: [Broken] has an annotation that
    names a class that does not exist, [NoAnnotations] declares no field. *)
Definition error_tests : host :=
  <[Broken := Raise NameError]> (<[NoAnnotations := Ok ∅]> ∅).

(** C8. When resolving the field types raises, or the type declares no
    field, [get_refs] returns the empty map. *)
Theorem get_refs_empty_on_failed_resolution (H : host) (cls : pyobj) :
  (∃ e, get_type_hints H cls = Raise e) ∨ get_type_hints H cls = Ok ∅ →
  get_refs H cls = Ok ∅.
Proof.
  intros [[e He]|Hempty].
  - by eapply get_refs_raise.
  - unfold get_refs. rewrite Hempty. by rewrite map_fold_empty.
Qed.

Lemma get_refs_empty_on_failed_resolution_witness :
  get_refs error_tests (PInt 42) = Ok ∅
  ∧ get_refs error_tests (PStr "not a class") = Ok ∅
  ∧ get_refs error_tests PNone = Ok ∅
  ∧ get_refs error_tests Broken = Ok ∅
  ∧ get_refs error_tests NoAnnotations = Ok ∅.
Proof.
  split; [|split; [|split; [|split]]]; apply get_refs_empty_on_failed_resolution.
  - left. exists TypeError. vm_compute. reflexivity.
  - left. exists TypeError. vm_compute. reflexivity.
  - left. exists TypeError. vm_compute. reflexivity.
  - left. exists NameError. vm_compute. reflexivity.
  - right. vm_compute. reflexivity.
Defined.

(** *** The metadata records *)

(** [isinstance(o, type)]: classes are types, aliases and plain values are
    not. *)
Definition isinstance_type (o : pyobj) : bool :=
  match o with
  | NoneType | PClass _ | PMarker _ => true
  | _ => false
  end.

Definition TreeNode := PClass "TreeNode".

(** The self-referential class of the integration tests:
    [parent: Ref["TreeNode"] | None] and [name: str].  The parameter of
    [Ref] is the string, which nothing resolves. *)
Definition tree_host : host :=
  {[TreeNode :=
      Ok (<["parent" :=
              TypingAlias typing_Union
                [_GenericAlias (PMarker Ref) [PStr "TreeNode"]; NoneType]]>
          {["name" := str]})]}.

Example TreeNode_parent_declared :
  (alias ← marker_getitem Ref (PStr "TreeNode"); _GenericAlias_or alias PNone)
  = Ok (TypingAlias typing_Union
          [_GenericAlias (PMarker Ref) [PStr "TreeNode"]; NoneType]).
Proof. vm_compute. reflexivity. Qed.

(** C9, as stated, fails: the record [get_refs] produces for [parent] is not
    a context reference and its target is a string, not a type. *)
Lemma TreeNode_target_is_not_a_type :
  ∃ refs info,
    get_refs tree_host TreeNode = Ok refs
    ∧ refs !! "parent" = Some info
    ∧ info.(is_context) = false
    ∧ info.(target) = PStr "TreeNode"
    ∧ isinstance_type info.(target) = false.
Proof.
  eexists _, (mkRefInfo "parent" (PStr "TreeNode") PNone false false true false).
  split; [vm_compute; reflexivity|]. split; [vm_compute; reflexivity|]. done.
Qed.

(** [Ref[None]] is accepted by the subscript operation, and then the target
    of the record is the value [None] itself. *)
Example Ref_None_target_is_None :
  (alias ← marker_getitem Ref PNone; _analyze_type "parent" alias)
  = Ok (Some (mkRefInfo "parent" PNone PNone false false false false)).
Proof. vm_compute. reflexivity. Qed.

(** A property of records that the marker blocks establish and the optional
    re-emission keeps holds of every classification. *)
Lemma _analyze_type_property (P : RefInfo → Prop) (name : string) :
  (∀ origin args info, _analyze_marker name origin args = Ok (Some info) → P info) →
  (∀ info, P info →
     P (mkRefInfo info.(field) info.(target) info.(attr) info.(is_list)
          info.(is_dict) true info.(is_context))) →
  ∀ hint info, _analyze_type name hint = Ok (Some info) → P info.
Proof.
  intros Hmarker Hopt hint.
  assert (∀ n hint, pyobj_size hint < n →
            ∀ info, _analyze_type name hint = Ok (Some info) → P info)
    as Hall; [|apply (Hall (S (pyobj_size hint))); lia].
  clear hint. induction n as [|n IH]; intros hint Hn info; [lia|].
  destruct (decide (_get_origin hint = Some typing_Union)) as [Ho|Ho].
  - destruct (non_none (_get_args hint)) as [|inner [|y l]] eqn:Hnn.
    + rewrite _analyze_type_union_reject; [done|done|by rewrite Hnn].
    + rewrite (_analyze_type_union _ _ inner) by done.
      assert (pyobj_size inner < pyobj_size hint) as Hlt.
      { apply _get_args_size. assert (inner ∈ non_none (_get_args hint)) as Hin
          by (rewrite Hnn; left).
        unfold non_none in Hin. by apply list_elem_of_filter in Hin as [_ ?]. }
      destruct (_analyze_type name inner) as [[inner_info|]|] eqn:Hinner;
        simpl; [|done|done].
      intros [= <-]. apply Hopt. apply (IH inner); [lia|done].
    + rewrite _analyze_type_union_reject; [done|done|by rewrite Hnn].
  - rewrite _analyze_type_marker by done. apply Hmarker.
Qed.

Lemma _analyze_marker_record (name : string) (origin : option pyobj)
    (args : list pyobj) (info : RefInfo) :
  _analyze_marker name origin args = Ok (Some info) →
  info.(field) = name
  ∧ (info.(is_context) = true →
     info.(target) = NoneType ∧ info.(is_list) = false ∧ info.(is_dict) = false)
  ∧ (info.(is_context) = false → info.(target) ∈ args)
  ∧ info.(is_list) && info.(is_dict) = false.
Proof.
  assert ((∃ m, origin = Some (PMarker m)) ∨ ∀ m, origin ≠ Some (PMarker m))
    as [[m ->]|Hne].
  { destruct origin as [[| | | | | |m| | | | |]|];
      try (right; intros m'; congruence). left. by exists m. }
  - destruct (decide (length args < required_arity m)) as [Hlt|Hge].
    { by rewrite _analyze_marker_short. }
    destruct m, args as [|a0 [|a1 args]]; simpl in Hge; try lia.
    all: rewrite ?_analyze_marker_Ref, ?_analyze_marker_Attr,
           ?_analyze_marker_RefList, ?_analyze_marker_RefDict,
           ?_analyze_marker_ContextRef.
    all: try match goal with
             | |- context [unwrap_name ?a] =>
                 destruct (unwrap_name_Ok a) as [v ->]; simpl
             end.
    all: intros [= <-]; simpl; repeat split; try done; intros _; set_solver.
  - by rewrite _analyze_marker_other.
Qed.

(** The alias a hint stands for: the hint itself when it is not a union,
    and otherwise what the single member of the union other than
    [type(None)] stands for, as the union case of [_analyze_type] descends. *)
Inductive unwraps_to : pyobj → pyobj → Prop :=
| unwraps_to_self hint :
    _get_origin hint ≠ Some typing_Union → unwraps_to hint hint
| unwraps_to_member hint inner alias :
    _get_origin hint = Some typing_Union →
    non_none (_get_args hint) = [inner] →
    unwraps_to inner alias →
    unwraps_to hint alias.

Lemma built_from_optional (m : marker) (args : list pyobj) (info : RefInfo) :
  built_from m args info →
  built_from m args
    (mkRefInfo info.(field) info.(target) info.(attr) info.(is_list)
       info.(is_dict) true info.(is_context)).
Proof. by destruct m. Qed.

(** Every classification is built from the parameters of the marker alias
    the hint stands for. *)
Lemma _analyze_type_built_from (name : string) (hint : pyobj) (info : RefInfo) :
  _analyze_type name hint = Ok (Some info) →
  ∃ alias m,
    unwraps_to hint alias
    ∧ _get_origin alias = Some (PMarker m)
    ∧ built_from m (_get_args alias) info.
Proof.
  assert (∀ n hint, pyobj_size hint < n →
            ∀ info, _analyze_type name hint = Ok (Some info) →
            ∃ alias m, unwraps_to hint alias
                       ∧ _get_origin alias = Some (PMarker m)
                       ∧ built_from m (_get_args alias) info)
    as Hall; [|apply (Hall (S (pyobj_size hint))); lia].
  clear hint info. induction n as [|n IH]; intros hint Hn info; [lia|].
  destruct (decide (_get_origin hint = Some typing_Union)) as [Ho|Ho].
  - destruct (non_none (_get_args hint)) as [|inner [|y l]] eqn:Hnn.
    + rewrite _analyze_type_union_reject; [done|done|by rewrite Hnn].
    + rewrite (_analyze_type_union _ _ inner) by done.
      assert (pyobj_size inner < pyobj_size hint) as Hlt.
      { apply _get_args_size. assert (inner ∈ non_none (_get_args hint)) as Hin
          by (rewrite Hnn; left).
        unfold non_none in Hin. by apply list_elem_of_filter in Hin as [_ ?]. }
      destruct (_analyze_type name inner) as [[inner_info|]|] eqn:Hinner;
        simpl; [|done|done].
      intros [= <-].
      destruct (IH inner ltac:(lia) inner_info Hinner) as (alias & m & Hu & Hm & Hb).
      exists alias, m. split; [by eapply unwraps_to_member|]. split; [done|].
      by apply built_from_optional.
    + rewrite _analyze_type_union_reject; [done|done|by rewrite Hnn].
  - rewrite _analyze_type_marker by done. intros Ha.
    assert (∃ m, _get_origin hint = Some (PMarker m)) as [m Hm].
    { destruct (_get_origin hint) as [[| | | | | |m| | | | |]|] eqn:Horigin;
        try (rewrite _analyze_marker_other in Ha; [done|congruence]).
      by exists m. }
    rewrite Hm in Ha. apply _analyze_marker_built_from in Ha as (_ & _ & _ & Hb).
    exists hint, m. split; [by apply unwraps_to_self|]. done.
Qed.

(** C9, amended. Every record [get_refs] produces carries the name of its
    field; when it is a context reference its target is [type(None)] and
    neither the list flag nor the map flag is set; the list flag and the map
    flag are never both true.  The record is built from the parameters of
    the marker alias that the declared type is, or stands for through
    optional unions: the target is the first parameter as written for
    Reference, Attribute-reference and Reference-list, the second for
    Reference-map, and the absence type for Context-reference.  Nothing
    checks that the parameter is a type. *)
Theorem get_refs_record_invariant
    (H : host) (cls : pyobj) (refs : gmap string RefInfo) (name : string)
    (info : RefInfo) :
  get_refs H cls = Ok refs →
  refs !! name = Some info →
  info.(field) = name
  ∧ (info.(is_context) = true →
     info.(target) = NoneType ∧ info.(is_list) = false ∧ info.(is_dict) = false)
  ∧ info.(is_list) && info.(is_dict) = false
  ∧ ∃ hints hint alias m,
      get_type_hints H cls = Ok hints
      ∧ hints !! name = Some hint
      ∧ unwraps_to hint alias
      ∧ _get_origin alias = Some (PMarker m)
      ∧ built_from m (_get_args alias) info.
Proof.
  intros Hrefs Hl.
  destruct (get_type_hints H cls) as [hints|e] eqn:Hh.
  2: { rewrite (get_refs_raise H cls e Hh) in Hrefs. injection Hrefs as <-.
       by rewrite lookup_empty in Hl. }
  destruct (get_refs_hints H cls hints Hh) as (refs' & Hrefs' & Hlook).
  rewrite Hrefs in Hrefs'. injection Hrefs' as <-.
  rewrite Hlook in Hl. destruct (hints !! name) as [hint|] eqn:Hhint; [|done].
  simpl in Hl. unfold classification in Hl.
  destruct (_analyze_type name hint) as [r|] eqn:Ha; [|done]. subst r.
  split; [|split; [|split]].
  - revert Ha. apply (_analyze_type_property (λ i, field i = name)); [|done].
    intros origin args i Hi. by apply _analyze_marker_record in Hi as (? & _).
  - revert Ha.
    apply (_analyze_type_property
             (λ i, is_context i = true →
                   target i = NoneType ∧ is_list i = false ∧ is_dict i = false));
      [|done].
    intros origin args i Hi. by apply _analyze_marker_record in Hi as (_ & ? & _).
  - revert Ha.
    apply (_analyze_type_property (λ i, is_list i && is_dict i = false)); [|done].
    intros origin args i Hi. by apply _analyze_marker_record in Hi as (_ & _ & _ & ?).
  - apply _analyze_type_built_from in Ha as (alias & m & Hu & Hm & Hb).
    by exists hints, hint, alias, m.
Qed.

Definition TreeNode_parent : RefInfo :=
  mkRefInfo "parent" (PStr "TreeNode") PNone false false true false.

Lemma get_refs_record_invariant_witness :
  TreeNode_parent.(field) = "parent"
  ∧ (TreeNode_parent.(is_context) = true →
     TreeNode_parent.(target) = NoneType
     ∧ TreeNode_parent.(is_list) = false ∧ TreeNode_parent.(is_dict) = false)
  ∧ TreeNode_parent.(is_list) && TreeNode_parent.(is_dict) = false
  ∧ ∃ hints hint alias m,
      get_type_hints tree_host TreeNode = Ok hints
      ∧ hints !! "parent" = Some hint
      ∧ unwraps_to hint alias
      ∧ _get_origin alias = Some (PMarker m)
      ∧ built_from m (_get_args alias) TreeNode_parent.
Proof.
  apply (get_refs_record_invariant tree_host TreeNode
           (<["parent" := TreeNode_parent]> ∅)).
  - vm_compute. reflexivity.
  - vm_compute. reflexivity.
Defined.

(** At the witness the alias is [Ref["TreeNode"]] and the target its only
    parameter, the string. *)
Example TreeNode_parent_built_from :
  unwraps_to
    (TypingAlias typing_Union
       [_GenericAlias (PMarker Ref) [PStr "TreeNode"]; NoneType])
    (_GenericAlias (PMarker Ref) [PStr "TreeNode"])
  ∧ built_from Ref [PStr "TreeNode"] TreeNode_parent.
Proof.
  split; [|done].
  eapply unwraps_to_member; [done|by vm_compute|]. by apply unwraps_to_self.
Qed.

(** ** Properties of the dependency computation *)

(** The order in which stdpp lists a set is one admissible iteration order. *)
#[global] Instance elements_order : SetIteration :=
  {| iter := elements; iter_perm := λ s, reflexivity (elements s) |}.

(** So is the reverse of it. *)
Definition reversed_order : SetIteration :=
  {| iter := λ s, reverse (elements s);
     iter_perm := λ s, reverse_Permutation (elements s) |}.

(** *** Direct mode *)




Lemma _analyze_type_GenericAlias (name : string) (m : marker) (args : list pyobj) :
  _analyze_type name (_GenericAlias (PMarker m) args)
  = _analyze_marker name (Some (PMarker m)) args.
Proof. by rewrite _analyze_type_marker. Qed.








Definition SecurityGroup := PClass "SecurityGroup".
Definition Resource := PClass "Resource".

(** [network: Ref[Network]], [group: Attr[SecurityGroup, "Id"] | None],
    [region: ContextRef["region"]] and [name: str]. *)
Definition Resource_hints : gmap string pyobj :=
  <["network" := _GenericAlias (PMarker Ref) [Network]]>
  (<["group" := TypingAlias typing_Union
                  [_GenericAlias (PMarker Attr) [SecurityGroup; PStr "Id"]; NoneType]]>
  (<["region" := _GenericAlias (PMarker ContextRef) [PStr "region"]]>
  (<["name" := str]> ∅))).

Definition resource_host : host := {[Resource := Ok Resource_hints]}.


(** *** Transitive mode *)

(** C1. Whatever the finite table of declared types, cycles and
    self-references included, and whatever the iteration order of sets, the
    transitive traversal returns: the loop ends with an empty work list, the
    result is its visited set, the types it expanded are pairwise distinct
    and are exactly the visited ones, and every type reachable along direct
    dependencies, at any distance, is among them. *)
Theorem transitive_traversal_terminates `{SetIteration} (H0 : host) (cls : pyobj) :
  ∃ direct s,
    get_dependencies H0 cls false = Ok direct
    ∧ while_loop H0 (mkLoop ∅ (iter direct) []) = Ok s
    ∧ get_dependencies H0 cls true = Ok s.(visited)
    ∧ s.(to_visit) = []
    ∧ NoDup s.(expanded)
    ∧ (∀ y, y ∈ s.(expanded) ↔ y ∈ s.(visited))
    ∧ (∀ y, reachable H0 cls y → y ∈ s.(visited)).
Proof.
  destruct (get_dependencies_transitive H0 cls)
    as (s & Hloop & Hdeps & Hnil & Hreach & Hnd & Hex).
  exists (deps_of H0 cls), s.
  split; [apply get_dependencies_direct|].
  repeat (split; [done|]). intros y. apply Hreach.
Qed.

(** The self-referential class of the tests: the traversal returns the
    string that [Ref] was given. *)
Example TreeNode_transitive :
  get_dependencies tree_host TreeNode true = Ok {[PStr "TreeNode"]}.
Proof. by_evaluation. Qed.

Definition Node := PClass "Node".

(** A class whose optional reference resolves to the class itself. *)
Definition node_host : host :=
  {[Node := Ok {["next" := TypingAlias typing_Union
                             [_GenericAlias (PMarker Ref) [Node]; NoneType]]}]}.

Example Node_transitive : get_dependencies node_host Node true = Ok {[Node]}.
Proof. by_evaluation. Qed.

(** C10. The direct dependencies of a type are among its transitive
    dependencies. *)
Theorem direct_subset_transitive `{SetIteration} (H0 : host) (cls : pyobj) :
  ∃ direct transitive,
    get_dependencies H0 cls false = Ok direct
    ∧ get_dependencies H0 cls true = Ok transitive
    ∧ direct ⊆ transitive.
Proof.
  destruct (get_dependencies_transitive H0 cls)
    as (s & _ & Hdeps & _ & Hreach & _).
  exists (deps_of H0 cls), (visited s).
  split; [apply get_dependencies_direct|]. split; [done|].
  intros y Hy. apply Hreach. by apply tc_once.
Qed.

(** C3. In a diamond, where [A] depends directly on [B] and [C], each of
    [B] and [C] on [D] alone, and [D] on nothing, the transitive dependencies
    of [A] are exactly [{B, C, D}]; when the three are distinct types the
    traversal expands each of them once, and the set has three elements. *)
Theorem diamond_transitive `{SetIteration} (H0 : host) (A B C D : pyobj) :
  get_dependencies H0 A false = Ok {[B; C]} →
  get_dependencies H0 B false = Ok {[D]} →
  get_dependencies H0 C false = Ok {[D]} →
  get_dependencies H0 D false = Ok ∅ →
  get_dependencies H0 A true = Ok {[B; C; D]}
  ∧ (NoDup [B; C; D] →
     size ({[B; C; D]} : gset pyobj) = 3
     ∧ ∃ s, while_loop H0 (mkLoop ∅ (iter {[B; C]}) []) = Ok s
            ∧ s.(expanded) ≡ₚ [B; C; D]).
Proof.
  rewrite !get_dependencies_direct. intros [= HA] [= HB] [= HC] [= HD].
  destruct (get_dependencies_transitive H0 A)
    as (s & Hloop & Hdeps & _ & Hreach & Hnd & Hex).
  assert (∀ y, reachable H0 A y ↔ y ∈ ({[B; C; D]} : gset pyobj)) as Hdiamond.
  { intros y. split.
    - assert (∀ x, tc (depends H0) x y → x ∈ ({[A; B; C; D]} : gset pyobj) →
                   y ∈ ({[B; C; D]} : gset pyobj)) as Hall;
        [|intros Hy; apply (Hall A Hy); set_solver].
      intros x Hxy. unfold depends in Hxy.
      induction Hxy as [x y Hxy|x z y Hxz _ IH]; intros Hx.
      + assert (x = A ∨ x = B ∨ x = C ∨ x = D) as [->|[->|[->| ->]]] by set_solver;
          set_solver.
      + apply IH.
        assert (x = A ∨ x = B ∨ x = C ∨ x = D) as [->|[->|[->| ->]]] by set_solver;
          set_solver.
    - intros Hy.
      assert (y = B ∨ y = C ∨ y = D) as [->|[->| ->]] by set_solver.
      + apply tc_once. unfold depends. set_solver.
      + apply tc_once. unfold depends. set_solver.
      + apply tc_l with B; [|apply tc_once]; unfold depends; set_solver. }
  assert (visited s = {[B; C; D]}) as Hvis.
  { apply set_eq. intros y. by rewrite Hreach. }
  split; [by rewrite Hdeps, Hvis|].
  intros Hdistinct. split.
  - apply NoDup_cons in Hdistinct as [HB' Hdistinct].
    apply NoDup_cons in Hdistinct as [HC' _].
    rewrite !size_union, !size_singleton; set_solver.
  - exists s. rewrite HA in Hloop. split; [done|].
    apply NoDup_Permutation; [done|done|].
    intros y. rewrite Hex, Hvis. set_solver.
Qed.

(** The diamond of the integration tests. *)
Definition cA := PClass "A".
Definition cB := PClass "B".
Definition cC := PClass "C".
Definition cD := PClass "D".

Definition diamond_host : host :=
  <[cA := Ok (<["b" := _GenericAlias (PMarker Ref) [cB]]>
              {["c" := _GenericAlias (PMarker Ref) [cC]]})]>
  (<[cB := Ok {["d" := _GenericAlias (PMarker Ref) [cD]]}]>
  (<[cC := Ok {["d" := _GenericAlias (PMarker Ref) [cD]]}]>
  (<[cD := Ok ∅]> ∅))).

Lemma diamond_transitive_witness :
  get_dependencies diamond_host cA true = Ok {[cB; cC; cD]}
  ∧ (NoDup [cB; cC; cD] →
     size ({[cB; cC; cD]} : gset pyobj) = 3
     ∧ ∃ s, while_loop diamond_host (mkLoop ∅ (iter {[cB; cC]}) []) = Ok s
            ∧ s.(expanded) ≡ₚ [cB; cC; cD]).
Proof.
  apply (diamond_transitive diamond_host cA cB cC cD).
  - by_evaluation.
  - by_evaluation.
  - by_evaluation.
  - by_evaluation.
Defined.

(** The same diamond traversed in the other iteration order. *)
Example diamond_transitive_reversed :
  @get_dependencies reversed_order diamond_host cA true = Ok {[cB; cC; cD]}.
Proof. by_evaluation. Qed.

(** ** Further properties of the classification *)

(** X1. Extraction never raises: [_analyze_type] returns on every declared
    type, since each index it reads is behind a length test, and so
    [get_refs] returns on every host and every input. *)
Theorem extraction_never_raises (H : host) (cls : pyobj) (name : string)
    (hint : pyobj) :
  (∃ info, _analyze_type name hint = Ok info)
  ∧ (∃ refs, get_refs H cls = Ok refs).
Proof. split; [apply _analyze_type_Ok|apply get_refs_Ok]. Qed.

(** X2. [get_refs] works field by field: it has an entry under a name exactly
    when the resolved hints have that name and [_analyze_type] classifies
    its declared type, and the entry is that classification; no other key
    appears. *)
Theorem get_refs_fieldwise
    (H : host) (cls : pyobj) (hints : gmap string pyobj)
    (refs : gmap string RefInfo) :
  get_type_hints H cls = Ok hints →
  get_refs H cls = Ok refs →
  (∀ name info,
     refs !! name = Some info ↔
     ∃ hint, hints !! name = Some hint ∧ _analyze_type name hint = Ok (Some info))
  ∧ dom refs ⊆ dom hints.
Proof.
  intros Hh Hr.
  destruct (get_refs_hints H cls hints Hh) as (refs' & Hr' & Hlook).
  rewrite Hr in Hr'. injection Hr' as <-.
  assert (∀ name info,
            refs !! name = Some info ↔
            ∃ hint, hints !! name = Some hint
                    ∧ _analyze_type name hint = Ok (Some info)) as Hiff.
  { intros name info. rewrite Hlook. split.
    - destruct (hints !! name) as [hint|]; [|done]. simpl. intros Hc.
      exists hint. split; [done|]. by rewrite _analyze_type_classification, Hc.
    - intros (hint & -> & Ha). simpl. unfold classification. by rewrite Ha. }
  split; [done|].
  intros name [info Hi]%elem_of_dom. apply Hiff in Hi as (hint & Hhint & _).
  apply elem_of_dom. by exists hint.
Qed.

Lemma get_refs_fieldwise_witness :
  (∀ name info,
     ({["network" := mkRefInfo "network" Network PNone false false false false;
        "group" := mkRefInfo "group" SecurityGroup (PStr "Id") false false true false;
        "region" := mkRefInfo "region" NoneType (PStr "region") false false false true]}
        : gmap string RefInfo) !! name = Some info ↔
     ∃ hint, Resource_hints !! name = Some hint
             ∧ _analyze_type name hint = Ok (Some info))
  ∧ dom ({["network" := mkRefInfo "network" Network PNone false false false false;
           "group" := mkRefInfo "group" SecurityGroup (PStr "Id") false false true false;
           "region" := mkRefInfo "region" NoneType (PStr "region") false false false true]}
           : gmap string RefInfo)
    ⊆ dom Resource_hints.
Proof.
  apply (get_refs_fieldwise resource_host Resource).
  - by_evaluation.
  - by_evaluation.
Defined.

(** X3. What a subscript operation stores is what introspection reads back:
    the alias has the marker class as origin and the parameters as supplied,
    one parameter for [Ref], [RefList] and [ContextRef] whatever the item is
    (a tuple stays one parameter), the two items of the pair for [Attr] and
    [RefDict].  [typing.get_origin] and [typing.get_args] alone see nothing
    in it, which is why the engine falls back on the attributes. *)
Theorem subscript_introspection_round_trip (m : marker) (item alias : pyobj) :
  marker_getitem m item = Ok alias →
  get_origin alias = None
  ∧ get_args alias = []
  ∧ _get_origin alias = Some (PMarker m)
  ∧ _get_args alias
    = match m with
      | Ref | RefList | ContextRef => [item]
      | Attr | RefDict => tuple_items item
      end
  ∧ length (_get_args alias) = required_arity m.
Proof.
  intros (args & -> & Hargs)%marker_getitem_alias.
  repeat (split; [done|]).
  change (_get_args (_GenericAlias (PMarker m) args)) with args.
  destruct m; simpl in *.
  - by subst.
  - destruct Hargs as [? ->]. done.
  - by subst.
  - destruct Hargs as [? ->]. done.
  - by subst.
Qed.

Lemma subscript_introspection_round_trip_witness :
  get_origin (_GenericAlias (PMarker Ref) [PTuple [NetworkA; NetworkB]]) = None
  ∧ get_args (_GenericAlias (PMarker Ref) [PTuple [NetworkA; NetworkB]]) = []
  ∧ _get_origin (_GenericAlias (PMarker Ref) [PTuple [NetworkA; NetworkB]])
    = Some (PMarker Ref)
  ∧ _get_args (_GenericAlias (PMarker Ref) [PTuple [NetworkA; NetworkB]])
    = [PTuple [NetworkA; NetworkB]]
  ∧ length (_get_args (_GenericAlias (PMarker Ref) [PTuple [NetworkA; NetworkB]]))
    = required_arity Ref.
Proof.
  apply (subscript_introspection_round_trip Ref (PTuple [NetworkA; NetworkB])).
  reflexivity.
Defined.

(** X4. The records of the three shapes without a name: [Ref[X]] gives the
    target [X] and no flag, [RefList[X]] the same with the list flag,
    [RefDict[K, X]] the target [X] with the map flag whatever the key type
    [K]; none of them has an attribute. *)
Theorem shapes_without_name (name : string) (X K : pyobj) :
  (alias ← marker_getitem Ref X; _analyze_type name alias)
  = Ok (Some (mkRefInfo name X PNone false false false false))
  ∧ (alias ← marker_getitem RefList X; _analyze_type name alias)
    = Ok (Some (mkRefInfo name X PNone true false false false))
  ∧ (alias ← marker_getitem RefDict (PTuple [K; X]); _analyze_type name alias)
    = Ok (Some (mkRefInfo name X PNone false true false false)).
Proof.
  simpl. rewrite !_analyze_type_GenericAlias.
  by rewrite _analyze_marker_Ref, _analyze_marker_RefList, _analyze_marker_RefDict.
Qed.

(** X5. A name given as a plain value or wrapped as the first value of a
    literal gives the same record: [Attr[T, v]] and [Attr[T, Literal[v, ...]]]
    both have attribute [v], [ContextRef[v]] and [ContextRef[Literal[v, ...]]]
    both have attribute [v] and the absence type as target. *)
Theorem literal_name_is_unwrapped (name : string) (T v : pyobj) (more : list pyobj) :
  _get_origin v = None →
  let literal := TypingAlias typing_Literal (v :: more) in
  (alias ← marker_getitem Attr (PTuple [T; v]); _analyze_type name alias)
  = Ok (Some (mkRefInfo name T v false false false false))
  ∧ (alias ← marker_getitem Attr (PTuple [T; literal]); _analyze_type name alias)
    = Ok (Some (mkRefInfo name T v false false false false))
  ∧ (alias ← marker_getitem ContextRef v; _analyze_type name alias)
    = Ok (Some (mkRefInfo name NoneType v false false false true))
  ∧ (alias ← marker_getitem ContextRef literal; _analyze_type name alias)
    = Ok (Some (mkRefInfo name NoneType v false false false true)).
Proof.
  intros Hv literal. simpl. rewrite !_analyze_type_GenericAlias.
  rewrite !_analyze_marker_Attr, !_analyze_marker_ContextRef.
  unfold unwrap_name. rewrite Hv. done.
Qed.

Lemma literal_name_is_unwrapped_witness :
  (alias ← marker_getitem Attr (PTuple [Role; PStr "Arn"]);
   _analyze_type "role_arn" alias)
  = Ok (Some (mkRefInfo "role_arn" Role (PStr "Arn") false false false false))
  ∧ (alias ← marker_getitem Attr
               (PTuple [Role; TypingAlias typing_Literal [PStr "Arn"]]);
     _analyze_type "role_arn" alias)
    = Ok (Some (mkRefInfo "role_arn" Role (PStr "Arn") false false false false))
  ∧ (alias ← marker_getitem ContextRef (PStr "Arn"); _analyze_type "role_arn" alias)
    = Ok (Some (mkRefInfo "role_arn" NoneType (PStr "Arn") false false false true))
  ∧ (alias ← marker_getitem ContextRef (TypingAlias typing_Literal [PStr "Arn"]);
     _analyze_type "role_arn" alias)
    = Ok (Some (mkRefInfo "role_arn" NoneType (PStr "Arn") false false false true)).
Proof.
  apply (literal_name_is_unwrapped "role_arn" Role (PStr "Arn") []).
  reflexivity.
Defined.

(** X6. A union is classified exactly when it has a single member other than
    [type(None)] and that member is classified; its record is the member's
    with the optional flag set.  In particular an optional plain type is not
    a reference. *)
Theorem union_classified_iff (name : string) (args : list pyobj) (info : RefInfo) :
  _analyze_type name (TypingAlias typing_Union args) = Ok (Some info) ↔
  ∃ inner inner_info,
    non_none args = [inner]
    ∧ _analyze_type name inner = Ok (Some inner_info)
    ∧ info = mkRefInfo inner_info.(field) inner_info.(target) inner_info.(attr)
               inner_info.(is_list) inner_info.(is_dict) true
               inner_info.(is_context).
Proof.
  assert (_get_args (TypingAlias typing_Union args) = args) as Hargs
    by (by destruct args).
  destruct (non_none args) as [|inner [|y l]] eqn:Hnn.
  - rewrite _analyze_type_union_reject; [|done|by rewrite Hargs, Hnn].
    split; [done|]. by intros (? & ? & ? & _).
  - rewrite (_analyze_type_union _ _ inner); [|done|by rewrite Hargs].
    destruct (_analyze_type_Ok name inner) as [[inner_info|] Hinner];
      rewrite Hinner; simpl.
    + split.
      * intros [= <-]. by exists inner, inner_info.
      * intros (inner' & inner_info' & [= <-] & Hi & ->).
        rewrite Hinner in Hi. by injection Hi as <-.
    + split; [done|]. intros (inner' & inner_info' & [= <-] & Hi & _).
      by rewrite Hinner in Hi.
  - rewrite _analyze_type_union_reject; [|done|by rewrite Hargs, Hnn].
    split; [done|]. by intros (? & ? & ? & _).
Qed.

(** X7. The optional flag of a record tells whether the declared type was a
    union: it is true for every classified union and false for every other
    classified hint. *)
Theorem optional_flag_iff_union (name : string) (hint : pyobj) (info : RefInfo) :
  _analyze_type name hint = Ok (Some info) →
  info.(is_optional) = true ↔ _get_origin hint = Some typing_Union.
Proof.
  intros Ha. destruct (decide (_get_origin hint = Some typing_Union)) as [Ho|Ho].
  - split; [done|]. intros _.
    destruct (non_none (_get_args hint)) as [|inner [|y l]] eqn:Hnn.
    + rewrite _analyze_type_union_reject in Ha; [done|done|by rewrite Hnn].
    + rewrite (_analyze_type_union _ _ inner) in Ha by done.
      destruct (_analyze_type name inner) as [[inner_info|]|]; simpl in Ha;
        [|done|done]. by injection Ha as <-.
    + rewrite _analyze_type_union_reject in Ha; [done|done|by rewrite Hnn].
  - split; [|done]. intros Hopt. rewrite _analyze_type_marker in Ha by done.
    exfalso. revert Ha Hopt. generalize (_get_origin hint) (_get_args hint).
    intros origin args.
    assert ((∃ m, origin = Some (PMarker m)) ∨ ∀ m, origin ≠ Some (PMarker m))
      as [[m ->]|Hne].
    { destruct origin as [[| | | | | |m| | | | |]|];
        try (right; intros m'; congruence). left. by exists m. }
    + destruct (decide (length args < required_arity m)) as [Hlt|Hge].
      { by rewrite _analyze_marker_short. }
      destruct m, args as [|a0 [|a1 args]]; simpl in Hge; try lia.
      all: rewrite ?_analyze_marker_Ref, ?_analyze_marker_Attr,
             ?_analyze_marker_RefList, ?_analyze_marker_RefDict,
             ?_analyze_marker_ContextRef.
      all: try match goal with
               | |- context [unwrap_name ?a] =>
                   destruct (unwrap_name_Ok a) as [v ->]; simpl
               end.
      all: by intros [= <-].
    + by rewrite _analyze_marker_other.
Qed.

Lemma optional_flag_iff_union_witness :
  TreeNode_parent.(is_optional) = true ↔
  _get_origin (TypingAlias typing_Union
                 [_GenericAlias (PMarker Ref) [PStr "TreeNode"]; NoneType])
  = Some typing_Union.
Proof.
  apply (optional_flag_iff_union "parent"). vm_compute. reflexivity.
Defined.

(** ** Further properties of the dependency computation *)

(** X8. Direct mode, read off the records: a type is a direct dependency
    exactly when it is the target of some record of [get_refs] that is not a
    context reference, and it is not the absence type. *)
Theorem direct_dependencies_are_targets `{SetIteration}
    (H0 : host) (cls : pyobj) (refs : gmap string RefInfo)
    (deps : gset pyobj) (x : pyobj) :
  get_refs H0 cls = Ok refs →
  get_dependencies H0 cls false = Ok deps →
  x ∈ deps ↔
    x ≠ NoneType
    ∧ ∃ name info, refs !! name = Some info
                   ∧ info.(is_context) = false ∧ info.(target) = x.
Proof.
  intros Hr. rewrite get_dependencies_direct. intros [= <-].
  destruct (direct_dependencies_Ok H0 cls) as [deps Hd].
  unfold deps_of. rewrite Hd. by apply (elem_of_direct_dependencies H0 cls).
Qed.

Lemma direct_dependencies_are_targets_witness :
  SecurityGroup ∈ ({[Network; SecurityGroup]} : gset pyobj) ↔
    SecurityGroup ≠ NoneType
    ∧ ∃ name info,
        ({["network" := mkRefInfo "network" Network PNone false false false false;
           "group" := mkRefInfo "group" SecurityGroup (PStr "Id") false false true false;
           "region" := mkRefInfo "region" NoneType (PStr "region") false false false true]}
           : gmap string RefInfo) !! name = Some info
        ∧ info.(is_context) = false ∧ info.(target) = SecurityGroup.
Proof.
  apply (direct_dependencies_are_targets resource_host Resource).
  - by_evaluation.
  - by_evaluation.
Defined.

(** X9. The absence type is never a dependency, in either mode. *)
Theorem NoneType_is_never_a_dependency `{SetIteration}
    (H0 : host) (cls : pyobj) (transitive : bool) :
  ∃ deps, get_dependencies H0 cls transitive = Ok deps ∧ NoneType ∉ deps.
Proof.
  assert (∀ c, NoneType ∉ deps_of H0 c) as Hdirect.
  { intros c. unfold deps_of.
    destruct (direct_dependencies H0 c) as [deps|] eqn:Hd; [|set_solver].
    destruct (get_refs_Ok H0 c) as [refs Hr].
    rewrite (elem_of_direct_dependencies H0 c refs deps NoneType Hr Hd).
    by intros [? _]. }
  destruct transitive.
  - destruct (get_dependencies_transitive H0 cls)
      as (s & _ & Hdeps & _ & Hreach & _).
    exists (visited s). split; [done|]. rewrite Hreach. intros Hr.
    assert (∀ x y, tc (depends H0) x y → y ≠ NoneType) as Hall.
    { intros x y Hxy. induction Hxy as [x y Hxy|]; [|done].
      intros ->. by apply (Hdirect x). }
    by apply (Hall _ _ Hr).
  - exists (deps_of H0 cls). split; [apply get_dependencies_direct|done].
Qed.

(** X10. The transitive mode returns exactly the types that can be reached
    from the start type by one or more direct-dependency steps: nothing
    reachable is missing and nothing else is returned. *)
Theorem transitive_is_reachability `{SetIteration} (H0 : host) (cls : pyobj) :
  ∃ deps, get_dependencies H0 cls true = Ok deps
          ∧ ∀ y, y ∈ deps ↔ reachable H0 cls y.
Proof.
  destruct (get_dependencies_transitive H0 cls)
    as (s & _ & Hdeps & _ & Hreach & _).
  by exists (visited s).
Qed.

(** X11. The transitive result does not depend on the order in which sets
    are iterated. *)
Theorem transitive_order_independent
    (order1 order2 : SetIteration) (H0 : host) (cls : pyobj) :
  @get_dependencies order1 H0 cls true = @get_dependencies order2 H0 cls true.
Proof.
  destruct (@get_dependencies_transitive order1 H0 cls)
    as (s1 & _ & Hdeps1 & _ & Hreach1 & _).
  destruct (@get_dependencies_transitive order2 H0 cls)
    as (s2 & _ & Hdeps2 & _ & Hreach2 & _).
  rewrite Hdeps1, Hdeps2. f_equal. apply set_eq. intros y.
  by rewrite Hreach1, Hreach2.
Qed.

(** X12. The transitive dependencies of a type are its direct dependencies
    together with the transitive dependencies of each of them. *)
Theorem transitive_unfolds `{SetIteration}
    (H0 : host) (cls : pyobj) (direct transitive : gset pyobj) (z : pyobj) :
  get_dependencies H0 cls false = Ok direct →
  get_dependencies H0 cls true = Ok transitive →
  z ∈ transitive ↔
    z ∈ direct
    ∨ ∃ y below, y ∈ direct ∧ get_dependencies H0 y true = Ok below ∧ z ∈ below.
Proof.
  rewrite get_dependencies_direct. intros [= <-] Ht.
  destruct (get_dependencies_transitive H0 cls)
    as (s & _ & Hdeps & _ & Hreach & _).
  rewrite Hdeps in Ht. injection Ht as <-. rewrite Hreach. split.
  - intros Hr. inversion Hr as [? ? Hstep|? y ? Hstep Hrest]; subst.
    + by left.
    + right. destruct (get_dependencies_transitive H0 y)
        as (sy & _ & Hdepsy & _ & Hreachy & _).
      exists y, (visited sy). split; [done|]. split; [done|]. by apply Hreachy.
  - intros [Hz|(y & below & Hy & Hbelow & Hz)].
    + by apply tc_once.
    + destruct (get_dependencies_transitive H0 y)
        as (sy & _ & Hdepsy & _ & Hreachy & _).
      rewrite Hdepsy in Hbelow. injection Hbelow as <-.
      apply tc_l with y; [done|]. by apply Hreachy.
Qed.

Lemma transitive_unfolds_witness :
  cD ∈ ({[cB; cC; cD]} : gset pyobj) ↔
    cD ∈ ({[cB; cC]} : gset pyobj)
    ∨ ∃ y below, y ∈ ({[cB; cC]} : gset pyobj)
                 ∧ get_dependencies diamond_host y true = Ok below ∧ cD ∈ below.
Proof.
  apply (transitive_unfolds diamond_host cA).
  - by_evaluation.
  - by_evaluation.
Defined.

(** X13. Transitive dependencies compose: whatever a transitive dependency
    of a type depends on, directly or transitively, is a transitive
    dependency of that type too. *)
Theorem transitive_is_closed `{SetIteration}
    (H0 : host) (cls y : pyobj) (above below : gset pyobj) :
  get_dependencies H0 cls true = Ok above →
  y ∈ above →
  get_dependencies H0 y true = Ok below →
  below ⊆ above
  ∧ ∀ direct, get_dependencies H0 y false = Ok direct → direct ⊆ above.
Proof.
  intros Habove Hy Hbelow.
  destruct (get_dependencies_transitive H0 cls)
    as (s & _ & Hdeps & _ & Hreach & _).
  destruct (get_dependencies_transitive H0 y)
    as (sy & _ & Hdepsy & _ & Hreachy & _).
  rewrite Hdeps in Habove. injection Habove as <-.
  rewrite Hdepsy in Hbelow. injection Hbelow as <-.
  apply Hreach in Hy. split.
  - intros z Hz%Hreachy. apply Hreach. unfold reachable in *. by etrans.
  - intros direct. rewrite get_dependencies_direct. intros [= <-] z Hz.
    apply Hreach. eapply tc_r; [done|]. done.
Qed.

Lemma transitive_is_closed_witness :
  ({[cD]} : gset pyobj) ⊆ {[cB; cC; cD]}
  ∧ ∀ direct, get_dependencies diamond_host cB false = Ok direct →
              direct ⊆ ({[cB; cC; cD]} : gset pyobj).
Proof.
  apply (transitive_is_closed diamond_host cA cB).
  - by_evaluation.
  - apply (bool_decide_unpack _). vm_compute. exact I.
  - by_evaluation.
Defined.

(** X14. A type has no transitive dependency exactly when it has no direct
    one; so a type whose fields cannot be resolved, or which declares none,
    has the empty set in both modes. *)
Theorem no_direct_iff_no_transitive `{SetIteration} (H0 : host) (cls : pyobj) :
  (get_dependencies H0 cls false = Ok ∅ ↔ get_dependencies H0 cls true = Ok ∅)
  ∧ ((∃ e, get_type_hints H0 cls = Raise e) ∨ get_type_hints H0 cls = Ok ∅ →
     get_dependencies H0 cls false = Ok ∅).
Proof.
  destruct (get_dependencies_transitive H0 cls)
    as (s & _ & Hdeps & _ & Hreach & _).
  rewrite get_dependencies_direct, Hdeps. split; [split|].
  - intros [= Hd]. f_equal. apply set_eq. intros y. rewrite Hreach.
    split; [|set_solver]. intros Hr.
    inversion Hr as [? ? Hstep|? z ? Hstep _]; subst; unfold depends in Hstep;
      rewrite Hd in Hstep; set_solver.
  - intros [= Hv]. f_equal. apply set_eq. intros y. split; [|set_solver].
    intros Hy. rewrite <- Hv. apply Hreach. by apply tc_once.
  - intros Hfail. f_equal. unfold deps_of, direct_dependencies.
    assert (get_refs H0 cls = Ok ∅) as ->.
    { destruct Hfail as [[e He]|Hempty].
      - by eapply get_refs_raise.
      - unfold get_refs. rewrite Hempty. by rewrite map_fold_empty. }
    simpl. rewrite map_to_list_empty. set_solver.
Qed.

Lemma no_direct_iff_no_transitive_witness :
  (get_dependencies error_tests Broken false = Ok ∅
   ↔ get_dependencies error_tests Broken true = Ok ∅)
  ∧ ((∃ e, get_type_hints error_tests Broken = Raise e)
     ∨ get_type_hints error_tests Broken = Ok ∅ →
     get_dependencies error_tests Broken false = Ok ∅).
Proof. apply (no_direct_iff_no_transitive error_tests Broken). Defined.

(** ** [examples/demo.py]: the creation order of [demo_topological_sort] *)

Module Demo.

(** The demo uses, besides the engine, [next(iter(...))] and [set.remove],
    which raise exceptions of their own. *)
Inductive demo_error :=
| StopIteration
| KeyError
| EngineError (e : exn).

Inductive outcome (A : Type) :=
| Done (a : A)
| Failed (e : demo_error).
Arguments Done {A} a.
Arguments Failed {A} e.

#[global] Instance outcome_ret : MRet outcome := λ A a, Done a.
#[global] Instance outcome_bind : MBind outcome :=
  λ A B f r, match r with Done a => f a | Failed e => Failed e end.

#[global] Instance demo_error_eq_dec : EqDecision demo_error.
Proof. solve_decision. Defined.

#[global] Instance outcome_eq_dec {A} `{EqDecision A} : EqDecision (outcome A).
Proof. solve_decision. Defined.

(** A call into the engine; what it raises propagates. *)
Definition engine {A} (r : result A) : outcome A :=
  match r with
  | Ok a => Done a
  | Raise e => Failed (EngineError e)
  end.

(** [next(iter(s))] on the items of [s] in iteration order. *)
Definition next_iter (items : list pyobj) : outcome pyobj :=
  match items with
  | r :: _ => Done r
  | [] => Failed StopIteration
  end.

(** [s.remove(r)]. *)
Definition set_remove (s : gset pyobj) (r : pyobj) : outcome (gset pyobj) :=
  if decide (r ∈ s) then Done (s ∖ {[r]}) else Failed KeyError.

(** The two variables the loop updates. *)
Record sort_state := mkSort {
  sorted_resources : list pyobj;
  remaining : gset pyobj;
}.

Section demo_topological_sort.
Context `{SetIteration}.
Variable H0 : host.

(** [[r for r in remaining
       if get_dependencies(r).issubset(set(sorted_resources))]], over the
    items of [remaining] in iteration order. *)
Fixpoint select_ready (candidates sorted_resources : list pyobj)
    : outcome (list pyobj) :=
  match candidates with
  | [] => Done []
  | r :: candidates =>
      deps ← engine (get_dependencies H0 r false);
      ready ← select_ready candidates sorted_resources;
      if decide (deps ⊆ list_to_set sorted_resources) then Done (r :: ready)
      else Done ready
  end.

(** [for r in ready: sorted_resources.append(r); remaining.remove(r)]. *)
Fixpoint place (ready : list pyobj) (s : sort_state) : outcome sort_state :=
  match ready with
  | [] => Done s
  | r :: ready =>
      remaining ← set_remove s.(remaining) r;
      place ready (mkSort (s.(sorted_resources) ++ [r]) remaining)
  end.

(** One iteration of [while remaining:], lines 225-237. *)
Definition sort_round (s : sort_state) : outcome sort_state :=
  ready ← select_ready (iter s.(remaining)) s.(sorted_resources);
  ready ← (if truthy ready then Done ready
           else r ← next_iter (iter s.(remaining)); Done [r]);
  place ready s.

Lemma place_Done (ready : list pyobj) (s s' : sort_state) :
  place ready s = Done s' →
  s'.(sorted_resources) = s.(sorted_resources) ++ ready
  ∧ s'.(remaining) = s.(remaining) ∖ list_to_set ready
  ∧ list_to_set ready ⊆ s.(remaining).
Proof.
  revert s. induction ready as [|r ready IH]; intros s; simpl.
  - intros [= <-]. rewrite app_nil_r. set_solver.
  - unfold set_remove. destruct (decide (r ∈ remaining s)) as [Hin|]; [|done].
    simpl. intros (Hs & Hr & Hsub)%IH. simpl in *.
    rewrite Hs, Hr, <- app_assoc. set_solver.
Qed.

Lemma place_NoDup (ready : list pyobj) (s : sort_state) :
  NoDup ready → list_to_set ready ⊆ s.(remaining) →
  ∃ s', place ready s = Done s'.
Proof.
  revert s. induction ready as [|r ready IH]; intros s Hnd Hsub; simpl.
  - by eexists.
  - apply NoDup_cons in Hnd as [Hr Hnd]. unfold set_remove.
    rewrite decide_True by set_solver. simpl. apply IH; [done|]. simpl.
    set_solver.
Qed.

Lemma select_ready_filter (candidates sorted : list pyobj) :
  select_ready candidates sorted
  = Done (filter (λ r, deps_of H0 r ⊆ list_to_set sorted) candidates).
Proof.
  induction candidates as [|r candidates IH]; simpl; [done|].
  rewrite get_dependencies_direct, IH. simpl.
  destruct (decide (deps_of H0 r ⊆ list_to_set sorted)) as [Hs|Hs].
  - by rewrite filter_cons_True.
  - by rewrite filter_cons_False.
Qed.

(** What one round does: it places the ready resources, or, when there is
    none, the first remaining one. *)
Definition round_choice (s : sort_state) : list pyobj :=
  let ready := filter (λ r, deps_of H0 r ⊆ list_to_set s.(sorted_resources))
                      (iter s.(remaining)) in
  if truthy ready then ready else take 1 (iter s.(remaining)).

Lemma round_choice_spec (s : sort_state) :
  s.(remaining) ≠ ∅ →
  NoDup (round_choice s)
  ∧ list_to_set (round_choice s) ⊆ s.(remaining)
  ∧ round_choice s ≠ [].
Proof.
  intros Hne. unfold round_choice.
  remember (filter (λ r, deps_of H0 r ⊆ list_to_set (sorted_resources s))
                   (iter (remaining s))) as ready eqn:Hready.
  assert (NoDup ready) by (subst ready; apply NoDup_filter, NoDup_iter).
  assert (list_to_set ready ⊆ remaining s).
  { subst ready.
    intros x [_ Hx%elem_of_iter]%elem_of_list_to_set%list_elem_of_filter. done. }
  destruct ready as [|r rest]; simpl; [|done].
  destruct (iter (remaining s)) as [|r0 others] eqn:Hiter.
  - exfalso. apply Hne. apply set_eq. intros x. rewrite <- elem_of_iter, Hiter.
    set_solver.
  - simpl. split; [apply NoDup_singleton|]. split; [|done].
    intros x Hx. apply elem_of_iter. rewrite Hiter. set_solver.
Qed.

Lemma sort_round_Done (s : sort_state) :
  s.(remaining) ≠ ∅ →
  sort_round s
  = Done (mkSort (s.(sorted_resources) ++ round_choice s)
                 (s.(remaining) ∖ list_to_set (round_choice s))).
Proof.
  intros Hne. destruct (round_choice_spec s Hne) as (Hnd & Hsub & _).
  destruct (place_NoDup (round_choice s) s Hnd Hsub) as [s' Hs'].
  assert (sort_round s = place (round_choice s) s) as ->.
  { unfold sort_round, round_choice. rewrite select_ready_filter. simpl.
    destruct (filter _ _) as [|r ready]; simpl; [|done].
    destruct (iter (remaining s)) as [|r0 others] eqn:Hiter; simpl; [|done].
    exfalso. apply Hne. apply set_eq. intros x.
    rewrite <- elem_of_iter, Hiter. set_solver. }
  rewrite Hs'. f_equal. apply place_Done in Hs' as (Hs & Hr & _).
  destruct s'. simpl in *. by subst.
Qed.

Lemma sort_round_remaining (s s' : sort_state) :
  s.(remaining) ≠ ∅ → sort_round s = Done s' →
  size s'.(remaining) < size s.(remaining).
Proof.
  intros Hne. rewrite sort_round_Done by done. intros [= <-]. simpl.
  destruct (round_choice_spec s Hne) as (_ & Hsub & Hnil).
  apply subset_size. destruct (round_choice s) as [|r rest]; [done|].
  split; [set_solver|]. intros Hback. specialize (Hback r). set_solver.
Qed.

(** [while remaining:], lines 224-237. *)
Equations? sort_loop (s : sort_state) : outcome sort_state
  by wf (size s.(remaining)) lt :=
sort_loop s with decide (s.(remaining) = ∅) := {
  | left _ => Done s
  | right _ with inspect (sort_round s) := {
      | exist _ (Done s') Hround => sort_loop s'
      | exist _ (Failed e) _ => Failed e } }.
Proof. by apply sort_round_remaining. Qed.

(** The sorting part of [demo_topological_sort], lines 220-237, from the
    list of registered classes to [sorted_resources]. *)
Definition demo_topological_sort (resources : list pyobj) : outcome (list pyobj) :=
  s ← sort_loop (mkSort [] (list_to_set resources));
  Done s.(sorted_resources).

Lemma sort_loop_step (s : sort_state) :
  sort_loop s =
    if decide (s.(remaining) = ∅) then Done s
    else s' ← sort_round s; sort_loop s'.
Proof.
  rewrite sort_loop_equation_1. simpl.
  destruct (decide (remaining s = ∅)); simpl; [done|].
  generalize (inspect (sort_round s)). intros [r Hr].
  destruct r as [s'|e]; simpl; by rewrite Hr.
Qed.

Lemma sort_loop_invariant (P : sort_state → Prop) (s : sort_state) :
  (∀ s, P s → s.(remaining) ≠ ∅ →
        P (mkSort (s.(sorted_resources) ++ round_choice s)
                  (s.(remaining) ∖ list_to_set (round_choice s)))) →
  P s →
  ∃ s', sort_loop s = Done s' ∧ P s' ∧ s'.(remaining) = ∅.
Proof.
  intros Hstep.
  assert (∀ n s, size s.(remaining) < n → P s →
                 ∃ s', sort_loop s = Done s' ∧ P s' ∧ remaining s' = ∅) as Hall;
    [|apply (Hall (S (size (remaining s)))); lia].
  clear s. induction n as [|n IH]; intros s Hn Hs; [lia|].
  rewrite sort_loop_step. destruct (decide (remaining s = ∅)) as [He|Hne].
  - by exists s.
  - pose proof (sort_round_Done s Hne) as Hround. rewrite Hround. simpl.
    apply IH; [|by apply Hstep].
    apply sort_round_remaining in Hround; [|done]. lia.
Qed.

(** Among finitely many types none of which reaches itself, one has no
    direct dependency among them. *)
Lemma exists_ready (S : gset pyobj) :
  S ≠ ∅ → (∀ x, x ∈ S → ¬ reachable H0 x x) →
  ∃ x, x ∈ S ∧ ∀ d, d ∈ deps_of H0 x → d ∉ S.
Proof.
  induction (set_wf S) as [S _ IH]. intros Hne Hacyclic.
  apply set_choose_L in Hne as [x Hx].
  destruct (get_dependencies_transitive H0 x) as (sx & _ & _ & _ & Hreach & _).
  destruct (decide (S ∩ visited sx = ∅)) as [Hempty|Hdesc].
  - exists x. split; [done|]. intros d Hd HdS.
    assert (d ∈ S ∩ visited sx) as Hin; [|set_solver].
    apply elem_of_intersection. split; [done|]. apply Hreach. by apply tc_once.
  - destruct (IH (S ∩ visited sx)) as (y & Hy & Hmin).
    + split; [set_solver|]. intros Hback. specialize (Hback x Hx).
      apply elem_of_intersection in Hback as [_ Hxx%Hreach].
      by apply (Hacyclic x).
    + done.
    + intros z Hz. apply Hacyclic. set_solver.
    + apply elem_of_intersection in Hy as [HyS Hxy%Hreach].
      exists y. split; [done|]. intros d Hd HdS. apply (Hmin d Hd).
      apply elem_of_intersection. split; [done|]. apply Hreach.
      eapply tc_r; [done|]. done.
Qed.

(** What the loop keeps: the placed resources are pairwise distinct, none of
    them is still remaining, and placed and remaining together are the
    registered ones. *)
Definition sort_invariant (resources : list pyobj) (s : sort_state) : Prop :=
  NoDup s.(sorted_resources)
  ∧ (∀ r, r ∈ s.(sorted_resources) → r ∉ s.(remaining))
  ∧ (∀ r, r ∈ resources ↔ r ∈ s.(sorted_resources) ∨ r ∈ s.(remaining)).

Lemma sort_invariant_init (resources : list pyobj) :
  sort_invariant resources (mkSort [] (list_to_set resources)).
Proof.
  unfold sort_invariant. simpl. split; [constructor|]. split; [set_solver|].
  intros r. rewrite elem_of_list_to_set. set_solver.
Qed.

Lemma sort_invariant_step (resources : list pyobj) (s : sort_state) :
  sort_invariant resources s → s.(remaining) ≠ ∅ →
  sort_invariant resources
    (mkSort (s.(sorted_resources) ++ round_choice s)
            (s.(remaining) ∖ list_to_set (round_choice s))).
Proof.
  intros (Hnd & Hdisj & Hall) Hne.
  destruct (round_choice_spec s Hne) as (Hnd' & Hsub & _).
  unfold sort_invariant. simpl. split; [|split].
  - apply NoDup_app. split; [done|]. split; [|done].
    intros r Hr Hr'. apply (Hdisj r Hr). apply Hsub. by apply elem_of_list_to_set.
  - intros r [Hr|Hr]%elem_of_app; [specialize (Hdisj r Hr)|]; set_solver.
  - intros r. rewrite Hall, elem_of_app, elem_of_difference, elem_of_list_to_set.
    split; [|set_solver]. intros [?|Hr]; [by left; left|].
    destruct (decide (r ∈ round_choice s)); [by left; right|by right].
Qed.

(** Every placed resource comes after its direct dependencies. *)
Definition dependencies_first (sorted : list pyobj) : Prop :=
  ∀ i r, sorted !! i = Some r → deps_of H0 r ⊆ list_to_set (take i sorted).

Lemma dependencies_first_step (resources : list pyobj) (s : sort_state) :
  (∀ r, r ∈ resources → deps_of H0 r ⊆ list_to_set resources) →
  (∀ r, r ∈ resources → ¬ reachable H0 r r) →
  sort_invariant resources s → s.(remaining) ≠ ∅ →
  dependencies_first s.(sorted_resources) →
  dependencies_first (s.(sorted_resources) ++ round_choice s).
Proof.
  intros Hclosed Hacyclic (Hnd & Hdisj & Hall) Hne Hfirst.
  assert (∀ r, r ∈ round_choice s →
               deps_of H0 r ⊆ list_to_set (sorted_resources s)) as Hready.
  { destruct (exists_ready (remaining s) Hne) as (x & Hx & Hmin).
    { intros x Hx. apply Hacyclic, Hall. by right. }
    assert (x ∈ filter (λ r, deps_of H0 r ⊆ list_to_set (sorted_resources s))
                       (iter (remaining s))) as Hxin.
    { apply list_elem_of_filter. split; [|by apply elem_of_iter].
      intros d Hd. apply elem_of_list_to_set.
      assert (d ∈ (list_to_set resources : gset pyobj)) as Hdr%elem_of_list_to_set.
      { apply (Hclosed x); [|done]. apply Hall. by right. }
      apply Hall in Hdr as [?|Hdr]; [done|]. by destruct (Hmin d Hd). }
    unfold round_choice.
    destruct (filter _ _) as [|r0 ready] eqn:Hf; [by apply not_elem_of_nil in Hxin|].
    simpl. intros r Hr. rewrite <- Hf in Hr.
    by apply list_elem_of_filter in Hr as [? _]. }
  intros i r Hi. destruct (decide (i < length (sorted_resources s))) as [Hlt|Hge].
  - rewrite lookup_app_l in Hi by done. rewrite take_app_le by lia.
    by apply Hfirst.
  - rewrite lookup_app_r in Hi by lia. rewrite take_app_ge by lia.
    rewrite list_to_set_app_L. apply list_elem_of_lookup_2, Hready in Hi.
    set_solver.
Qed.
End demo_topological_sort.

(** X15. The sort of [demo_topological_sort] returns on every list of
    registered classes and every dependency graph, cyclic or not: neither
    [next(iter(remaining))] nor [remaining.remove(r)] ever fails, and the
    creation order lists each registered class exactly once. *)
Theorem creation_order_lists_each_class_once `{SetIteration}
    (H0 : host) (resources : list pyobj) :
  ∃ order, demo_topological_sort H0 resources = Done order
           ∧ NoDup order
           ∧ ∀ r, r ∈ order ↔ r ∈ resources.
Proof.
  destruct (sort_loop_invariant H0 (sort_invariant resources)
              (mkSort [] (list_to_set resources)))
    as (s & Hloop & (Hnd & _ & Hall) & Hnil).
  { intros s Hs Hne. by apply sort_invariant_step. }
  { apply sort_invariant_init. }
  exists (sorted_resources s). unfold demo_topological_sort. rewrite Hloop.
  split; [done|]. split; [done|]. intros r. rewrite Hall, Hnil. set_solver.
Qed.

(** X16. When every direct dependency of a registered class is registered
    too and no registered class is among its own transitive dependencies,
    the creation order puts each class after all its direct dependencies. *)
Theorem creation_order_respects_dependencies `{SetIteration}
    (H0 : host) (resources order : list pyobj) :
  (∀ r direct, r ∈ resources → get_dependencies H0 r false = Ok direct →
               direct ⊆ list_to_set resources) →
  (∀ r transitive, r ∈ resources → get_dependencies H0 r true = Ok transitive →
                   r ∉ transitive) →
  demo_topological_sort H0 resources = Done order →
  ∀ i r direct d,
    order !! i = Some r →
    get_dependencies H0 r false = Ok direct →
    d ∈ direct →
    ∃ j, j < i ∧ order !! j = Some d.
Proof.
  intros Hclosed Hacyclic Hsort.
  assert (∀ r, r ∈ resources → deps_of H0 r ⊆ list_to_set resources) as Hclosed'.
  { intros r Hr. apply (Hclosed r); [done|]. apply get_dependencies_direct. }
  assert (∀ r, r ∈ resources → ¬ reachable H0 r r) as Hacyclic'.
  { intros r Hr Hrr.
    destruct (get_dependencies_transitive H0 r) as (s & _ & Hdeps & _ & Hreach & _).
    apply (Hacyclic r (visited s) Hr Hdeps). by apply Hreach. }
  destruct (sort_loop_invariant H0
              (λ s, sort_invariant resources s
                    ∧ dependencies_first H0 s.(sorted_resources))
              (mkSort [] (list_to_set resources)))
    as (s & Hloop & (_ & Hfirst) & _).
  { intros s [Hs Hf] Hne. split; [by apply sort_invariant_step|].
    by eapply dependencies_first_step. }
  { split; [apply sort_invariant_init|]. intros i r Hi. by simpl in Hi. }
  unfold demo_topological_sort in Hsort. rewrite Hloop in Hsort.
  injection Hsort as <-.
  intros i r direct d Hi. rewrite get_dependencies_direct. intros [= <-] Hd.
  apply (Hfirst i r Hi), elem_of_list_to_set, list_elem_of_lookup in Hd as [j Hj].
  exists j. apply lookup_take_Some in Hj as [? ?]. done.
Qed.

(** The dependencies of the four classes of the diamond, in both modes. *)
Lemma diamond_dependencies (r : pyobj) :
  r ∈ [cA; cB; cC; cD] →
  ∃ direct transitive,
    get_dependencies diamond_host r false = Ok direct
    ∧ get_dependencies diamond_host r true = Ok transitive
    ∧ direct ⊆ list_to_set [cA; cB; cC; cD]
    ∧ r ∉ transitive.
Proof.
  intros Hr. repeat (apply elem_of_cons in Hr as [->|Hr]);
    [| | | |by apply not_elem_of_nil in Hr].
  - exists {[cB; cC]}, {[cB; cC; cD]}.
    split; [by_evaluation|]. split; [by_evaluation|].
    split; apply (bool_decide_unpack _); vm_compute; exact I.
  - exists {[cD]}, {[cD]}.
    split; [by_evaluation|]. split; [by_evaluation|].
    split; apply (bool_decide_unpack _); vm_compute; exact I.
  - exists {[cD]}, {[cD]}.
    split; [by_evaluation|]. split; [by_evaluation|].
    split; apply (bool_decide_unpack _); vm_compute; exact I.
  - exists ∅, ∅.
    split; [by_evaluation|]. split; [by_evaluation|].
    split; apply (bool_decide_unpack _); vm_compute; exact I.
Qed.

Lemma creation_order_respects_dependencies_witness :
  ∃ j, j < 3 ∧ [cD; cC; cB; cA] !! j = Some cB.
Proof.
  assert (∀ r direct, r ∈ [cA; cB; cC; cD] →
            get_dependencies diamond_host r false = Ok direct →
            direct ⊆ list_to_set [cA; cB; cC; cD]) as Hclosed.
  { intros r direct (d & t & Hd & _ & Hsub & _)%diamond_dependencies.
    rewrite Hd. by intros [= <-]. }
  assert (∀ r transitive, r ∈ [cA; cB; cC; cD] →
            get_dependencies diamond_host r true = Ok transitive →
            r ∉ transitive) as Hacyclic.
  { intros r transitive (d & t & _ & Ht & _ & Hnot)%diamond_dependencies.
    rewrite Ht. by intros [= <-]. }
  assert (demo_topological_sort diamond_host [cA; cB; cC; cD]
          = Done [cD; cC; cB; cA]) as Hsort by by_evaluation.
  apply (creation_order_respects_dependencies diamond_host
           [cA; cB; cC; cD] [cD; cC; cB; cA] Hclosed Hacyclic Hsort
           3 cA {[cB; cC]} cB).
  - reflexivity.
  - by_evaluation.
  - apply (bool_decide_unpack _). vm_compute. exact I.
Defined.

(** With a cycle the order still lists every class once. *)
Example Node_creation_order : demo_topological_sort node_host [Node] = Done [Node].
Proof. by_evaluation. Qed.

End Demo.
